(** * Batch partitioning and combine-and-write: a shallow embedding

    The development follows the two Python modules of the repository:

    - [flow_test/transform_tasks/xarray.py]: the Prefect tasks [chunk]
      and [combine_and_write];
    - [cdk/bakery_stack.py]: the CDK stack [BakeryStack].

    [combine_and_write] is a straight-line sequence of calls into fsspec,
    xarray and zarr.  Those libraries are not part of the repository, so
    the task is embedded as a program over an explicit signature of
    library calls ([LibE]) and is run against an arbitrary implementation
    of that signature ([Library]); every call may raise, and every call
    may change the outside world. *)

From Stdlib Require Import ZArith Lia.
From Stdlib Require Import DecimalString.
From stdpp Require Import base list strings.
From Equations Require Import Equations.

Local Open Scope string_scope.
Local Open Scope list_scope.

(* ===================================================================== *)
(** * Part I: definitions *)
(* ===================================================================== *)

(** ** The batch partitioner *)

Module Partition.

(** Modelled from the spec: [pangeo_forge.utils.chunked_iterable], which
    [chunk] imports and which is not among the repository's files.  The
    spec describes it as producing tuples "each of length [size] except
    possibly the last, which holds the remainder", in order: the next
    tuple is the next [size] items of the sequence, and the iteration
    stops when no item is left.  Sizes that are not positive are outside
    the spec's contract. *)
Equations chunked_iterable {A : Type} (iterable : list A) (size : nat)
  : list (list A) by wf (length iterable) lt :=
  chunked_iterable nil _ := nil;
  chunked_iterable (cons x xs) 0 := nil;
  chunked_iterable (cons x xs) (S n) :=
    take (S n) (x :: xs) :: chunked_iterable (drop (S n) (x :: xs)) (S n).
Next Obligation. rewrite length_drop. lia. Qed.

(** [chunk] (xarray.py, line 8): [list(utils.chunked_iterable(sources, size))]. *)
Definition chunk {A : Type} (sources : list A) (size : nat) : list (list A) :=
  chunked_iterable sources size.

End Partition.

(** ** The library signature and the program monad *)

Module Xarray.

(** The Python objects that [combine_and_write] passes from one library
    call to the next.  The task never looks inside them. *)
Class Handles := {
  OpenFile : Type;  (* [fsspec.core.OpenFile], returned by [fsspec.open(url)] *)
  File : Type;      (* the file-like object returned by [OpenFile.open()] *)
  Dataset : Type;   (* [xarray.Dataset] *)
  Mapper : Type     (* [fsspec.mapping.FSMap], returned by [fsspec.get_mapper] *)
}.

(** A Python dict with string keys, in insertion order. *)
Definition dict (V : Type) : Type := list (string * V).

(** The library calls made by the task, indexed by the type of their
    result. *)
Inductive LibE `{Handles} : Type -> Type :=
| fsspec_open (url : string) : LibE OpenFile
| OpenFile_open (f : OpenFile) : LibE File
| xr_open_mfdataset (paths : list File) (combine concat_dim : string) : LibE Dataset
| Dataset_chunk (ds : Dataset) (chunks : dict nat) : LibE Dataset
| fsspec_get_mapper (url : string) : LibE Mapper
| Mapper_len (mapper : Mapper) : LibE nat
| Dataset_to_zarr (ds : Dataset) (store : Mapper) (kwargs : dict string) : LibE unit.

(** Programs: a result, or a library call followed by the rest of the
    program. *)
Inductive Prog `{Handles} (A : Type) : Type :=
| Ret (a : A)
| Call {X : Type} (e : LibE X) (k : X -> Prog A).
Arguments Ret {_ _} a.
Arguments Call {_ _ _} e k.

Fixpoint bind `{Handles} {A B : Type} (p : Prog A) (f : A -> Prog B) : Prog B :=
  match p with
  | Ret a => f a
  | Call e k => Call e (fun x => bind (k x) f)
  end.

#[export] Instance prog_ret `{Handles} : MRet Prog := fun A a => Ret a.
#[export] Instance prog_bind `{Handles} : MBind Prog := fun A B f p => bind p f.

Definition call `{Handles} {X : Type} (e : LibE X) : Prog X := Call e Ret.

(** A list comprehension [[body(x) for x in xs]]: the body runs once per
    element, left to right. *)
Fixpoint list_comp `{Handles} {A B : Type} (body : A -> Prog B) (xs : list A)
  : Prog (list B) :=
  match xs with
  | [] => mret []
  | x :: xs => y ← body x; ys ← list_comp body xs; mret (y :: ys)
  end.

(** ** The task *)

(** [fsspec.open(url).open()] (xarray.py, line 72). *)
Definition double_open `{Handles} (url : string) : Prog File :=
  f ← call (fsspec_open url); call (OpenFile_open f).

(** [not n] for a Python int. *)
Definition py_not (n : nat) : bool := Nat.eqb n 0.

(** [combine_and_write] (xarray.py, lines 72-84). *)
Definition combine_and_write `{Handles}
    (sources : list string) (target append_dim concat_dim : string) : Prog string :=
  double_open_files ← list_comp double_open sources;
  ds ← call (xr_open_mfdataset double_open_files "nested" concat_dim);
  (* by definition, this should be a contiguous chunk *)
  ds ← call (Dataset_chunk ds [(append_dim, length sources)]);
  mapper ← call (fsspec_get_mapper target);
  n ← call (Mapper_len mapper);
  let kwargs :=
    if py_not n then
      (* The first write *)
      [("mode", "w")]
    else
      [("mode", "a"); ("append_dim", append_dim)] in
  _ ← call (Dataset_to_zarr ds mapper kwargs);
  mret target.

(** ** Running a program against a library *)

(** An implementation of the libraries: a state of the outside world
    (file systems, object stores), the exceptions the libraries raise, and
    what each call does.  A call returns the world it leaves behind
    together with either the exception raised or the result. *)
Class Library `{Handles} := {
  World : Type;
  Exn : Type;
  lib_call : forall X : Type, LibE X -> World -> World * (Exn + X)
}.
Arguments lib_call {_ _ _} e w.

(** One observed library call: the call and how it ended. *)
Record Obs `{Library} := mkObs {
  obs_ty : Type;
  obs_call : LibE obs_ty;
  obs_resp : Exn + obs_ty
}.
Arguments mkObs {_ _ _} obs_call obs_resp.

(** The outcome of a run: the final world, the calls made in order, and
    the exception that ended the run or the value returned. *)
Fixpoint run `{Library} {A : Type} (p : Prog A) (w : World)
  : World * list Obs * (Exn + A) :=
  match p with
  | Ret a => (w, [], inr a)
  | Call e k =>
      match lib_call e w with
      | (w1, inl exn) => (w1, [mkObs e (inl exn)], inl exn)
      | (w1, inr x) =>
          let '(w2, tr, r) := run (k x) w1 in (w2, mkObs e (inr x) :: tr, r)
      end
  end.

(** *** Reading a trace *)

Section Observations.
Context `{Library}.

(** The exception raised by a call, if it raised. *)
Definition obs_raised (o : Obs) : option Exn :=
  match obs_resp o with inl exn => Some exn | inr _ => None end.

(** The arguments of a call to [xr.open_mfdataset]. *)
Definition obs_combine (o : Obs) : option (list File * string * string) :=
  match obs_call o with
  | xr_open_mfdataset paths combine concat_dim => Some (paths, combine, concat_dim)
  | _ => None
  end.

(** The arguments of a call to [Dataset.chunk]. *)
Definition obs_rechunk (o : Obs) : option (Dataset * dict nat) :=
  match obs_call o with
  | Dataset_chunk ds chunks => Some (ds, chunks)
  | _ => None
  end.

(** The dataset returned by a call to [Dataset.chunk]. *)
Definition obs_rechunked (o : Obs) : option Dataset :=
  match obs_call o in LibE X return Exn + X -> option Dataset with
  | Dataset_chunk _ _ => fun r => match r with inr ds => Some ds | inl _ => None end
  | _ => fun _ => None
  end (obs_resp o).

(** The mapper returned by a call to [fsspec.get_mapper]. *)
Definition obs_mapper (o : Obs) : option Mapper :=
  match obs_call o in LibE X return Exn + X -> option Mapper with
  | fsspec_get_mapper _ => fun r => match r with inr m => Some m | inl _ => None end
  | _ => fun _ => None
  end (obs_resp o).

(** The number of keys returned by a call to [len(mapper)]. *)
Definition obs_len (o : Obs) : option (Mapper * nat) :=
  match obs_call o in LibE X return Exn + X -> option (Mapper * nat) with
  | Mapper_len m => fun r => match r with inr n => Some (m, n) | inl _ => None end
  | _ => fun _ => None
  end (obs_resp o).

(** The arguments of a call to [Dataset.to_zarr]. *)
Definition obs_write (o : Obs) : option (Dataset * Mapper * dict string) :=
  match obs_call o with
  | Dataset_to_zarr ds store kwargs => Some (ds, store, kwargs)
  | _ => None
  end.

(** The dataset returned by a call to [xr.open_mfdataset]. *)
Definition obs_combined (o : Obs) : option Dataset :=
  match obs_call o in LibE X return Exn + X -> option Dataset with
  | xr_open_mfdataset _ _ _ =>
      fun r => match r with inr ds => Some ds | inl _ => None end
  | _ => fun _ => None
  end (obs_resp o).

(** The locator given to a call to [fsspec.get_mapper]. *)
Definition obs_mapper_url (o : Obs) : option string :=
  match obs_call o with
  | fsspec_get_mapper url => Some url
  | _ => None
  end.

(** Calls that only read: every call of the signature but [to_zarr]. *)
Definition is_read {X : Type} (e : LibE X) : bool :=
  match e with Dataset_to_zarr _ _ _ => false | _ => true end.

(** The trace of opening [sources] successfully, one [fsspec.open] and one
    [.open()] per source, where [ofs] and [fs] are the objects returned. *)
Fixpoint open_trace (sources : list string) (ofs : list OpenFile) (fs : list File)
  : list Obs :=
  match sources, ofs, fs with
  | url :: sources, f :: ofs, file :: fs =>
      mkObs (fsspec_open url) (inr f) :: mkObs (OpenFile_open f) (inr file)
        :: open_trace sources ofs fs
  | _, _, _ => []
  end.

End Observations.

(** *** The shapes a run of the task can take *)

Section Outcomes.
Context `{Library}.

(** The keyword arguments the task passes to [to_zarr] once [len(mapper)]
    has returned [n] (xarray.py, lines 78-82). *)
Definition write_kwargs (n : nat) (append_dim : string) : dict string :=
  if py_not n then [("mode", "w")] else [("mode", "a"); ("append_dim", append_dim)].

(** What happens after the sources of a batch of [k] sources were opened as
    [fs], from world [w1] on: the five remaining calls are made in order
    until one raises.  [after_open k target append_dim concat_dim fs w1 w' tr r]
    holds when these calls leave the world [w'], the trace [tr] and the
    outcome [r]. *)
Inductive after_open (k : nat) (target append_dim concat_dim : string)
    (fs : list File) (w1 : World) : World -> list Obs -> Exn + string -> Prop :=
| combine_raises w2 exn :
    lib_call (xr_open_mfdataset fs "nested" concat_dim) w1 = (w2, inl exn) ->
    after_open k target append_dim concat_dim fs w1 w2
      [mkObs (xr_open_mfdataset fs "nested" concat_dim) (inl exn)] (inl exn)
| rechunk_raises w2 ds w3 exn :
    lib_call (xr_open_mfdataset fs "nested" concat_dim) w1 = (w2, inr ds) ->
    lib_call (Dataset_chunk ds [(append_dim, k)]) w2 = (w3, inl exn) ->
    after_open k target append_dim concat_dim fs w1 w3
      [mkObs (xr_open_mfdataset fs "nested" concat_dim) (inr ds);
       mkObs (Dataset_chunk ds [(append_dim, k)]) (inl exn)] (inl exn)
| get_mapper_raises w2 ds w3 ds' w4 exn :
    lib_call (xr_open_mfdataset fs "nested" concat_dim) w1 = (w2, inr ds) ->
    lib_call (Dataset_chunk ds [(append_dim, k)]) w2 = (w3, inr ds') ->
    lib_call (fsspec_get_mapper target) w3 = (w4, inl exn) ->
    after_open k target append_dim concat_dim fs w1 w4
      [mkObs (xr_open_mfdataset fs "nested" concat_dim) (inr ds);
       mkObs (Dataset_chunk ds [(append_dim, k)]) (inr ds');
       mkObs (fsspec_get_mapper target) (inl exn)] (inl exn)
| len_raises w2 ds w3 ds' w4 mapper w5 exn :
    lib_call (xr_open_mfdataset fs "nested" concat_dim) w1 = (w2, inr ds) ->
    lib_call (Dataset_chunk ds [(append_dim, k)]) w2 = (w3, inr ds') ->
    lib_call (fsspec_get_mapper target) w3 = (w4, inr mapper) ->
    lib_call (Mapper_len mapper) w4 = (w5, inl exn) ->
    after_open k target append_dim concat_dim fs w1 w5
      [mkObs (xr_open_mfdataset fs "nested" concat_dim) (inr ds);
       mkObs (Dataset_chunk ds [(append_dim, k)]) (inr ds');
       mkObs (fsspec_get_mapper target) (inr mapper);
       mkObs (Mapper_len mapper) (inl exn)] (inl exn)
| write_reached w2 ds w3 ds' w4 mapper w5 n w6 res :
    lib_call (xr_open_mfdataset fs "nested" concat_dim) w1 = (w2, inr ds) ->
    lib_call (Dataset_chunk ds [(append_dim, k)]) w2 = (w3, inr ds') ->
    lib_call (fsspec_get_mapper target) w3 = (w4, inr mapper) ->
    lib_call (Mapper_len mapper) w4 = (w5, inr n) ->
    lib_call (Dataset_to_zarr ds' mapper (write_kwargs n append_dim)) w5 = (w6, res) ->
    after_open k target append_dim concat_dim fs w1 w6
      [mkObs (xr_open_mfdataset fs "nested" concat_dim) (inr ds);
       mkObs (Dataset_chunk ds [(append_dim, k)]) (inr ds');
       mkObs (fsspec_get_mapper target) (inr mapper);
       mkObs (Mapper_len mapper) (inr n);
       mkObs (Dataset_to_zarr ds' mapper (write_kwargs n append_dim)) res]
      (match res with inl exn => inl exn | inr _ => inr target end).

(** A call of the two kinds made while opening the sources. *)
Definition is_open_call {X : Type} (e : LibE X) : bool :=
  match e with fsspec_open _ | OpenFile_open _ => true | _ => false end.

End Outcomes.

End Xarray.

(** ** A reference implementation of the libraries *)

(** fsspec, xarray and zarr are outside the repository.  [RefLib] is a
    small in-memory implementation of the signature [LibE] that follows
    their documented behaviour on one-dimensional datasets; it serves as
    the concrete library on which the general theorems are instantiated and
    on which the task is run on concrete inputs.

    - A source file holds the records of a dataset along one named
      dimension.
    - [xr.open_mfdataset(files, combine="nested", concat_dim=d)] joins
      the files in the order of the list, one block per file; it raises
      when the list is empty or when a file is not laid out along [d].
    - [Dataset.chunk({d: k})] cuts dimension [d] into blocks of [k]
      records, the last possibly shorter.
    - [len(mapper)] counts the keys under the locator.
    - [to_zarr(mode="w")] replaces whatever the locator holds by the
      dataset; [to_zarr(mode="a", append_dim=d)] adds the dataset's blocks
      after those of the store along [d], and raises when the dataset or
      the stored array is not laid out along [d]. *)
Module RefLib.
Import Xarray.

Record NcFile := { nc_dim : string; nc_rows : list nat }.

Record RefDataset := { ds_dim : string; ds_blocks : list (list nat) }.

(** The content under a store locator: keys that do not belong to a zarr
    array, and at most one array with the dimension it is laid out along
    and its chunks. *)
Record ZarrStore := {
  z_foreign : nat;
  z_array : option (string * list (list nat))
}.

Record RefWorld := {
  files : string -> option NcFile;
  stores : string -> option ZarrStore
}.

Inductive RefExn :=
| FileNotFoundError (url : string)
| OSError (msg : string)
| ValueError (msg : string).

#[export] Instance ref_handles : Handles := {|
  OpenFile := string;
  File := NcFile;
  Dataset := RefDataset;
  Mapper := string
|}.

Definition put_store (w : RefWorld) (url : string) (st : ZarrStore) : RefWorld :=
  {| files := files w;
     stores := fun k => if decide (k = url) then Some st else stores w k |}.

Definition kwarg (key : string) (kwargs : dict string) : option string :=
  snd <$> List.find (fun kv => bool_decide (fst kv = key)) kwargs.

Definition ref_open_mfdataset (paths : list NcFile) (concat_dim : string)
  : RefExn + RefDataset :=
  match paths with
  | [] => inl (OSError "no files to open")
  | _ =>
      if forallb (fun f => bool_decide (nc_dim f = concat_dim)) paths
      then inr {| ds_dim := concat_dim; ds_blocks := nc_rows <$> paths |}
      else inl (ValueError "concat_dim is not a dimension of every file")
  end.

Fixpoint ref_chunk (ds : RefDataset) (chunks : dict nat) : RefExn + RefDataset :=
  match chunks with
  | [] => inr ds
  | (d, k) :: chunks =>
      if bool_decide (d = ds_dim ds) && negb (Nat.eqb k 0)
      then ref_chunk {| ds_dim := ds_dim ds;
                        ds_blocks :=
                          Partition.chunked_iterable (concat (ds_blocks ds)) k |}
                     chunks
      else inl (ValueError "chunks keys are not dimensions of the dataset")
  end.

Definition ref_len (st : option ZarrStore) : nat :=
  match st with
  | None => 0
  | Some st =>
      z_foreign st
      + match z_array st with None => 0 | Some (_, chunks) => 1 + length chunks end
  end.

Definition ref_to_zarr (ds : RefDataset) (store : string) (kwargs : dict string)
    (w : RefWorld) : RefWorld * (RefExn + unit) :=
  match kwarg "mode" kwargs, kwarg "append_dim" kwargs with
  | Some mode, None =>
      if bool_decide (mode = "w")
      then (put_store w store
              {| z_foreign := 0; z_array := Some (ds_dim ds, ds_blocks ds) |},
            inr ())
      else (w, inl (ValueError "mode"))
  | Some mode, Some d =>
      if bool_decide (mode = "a") && bool_decide (ds_dim ds = d)
      then
        match stores w store with
        | None =>
            (put_store w store
               {| z_foreign := 0; z_array := Some (d, ds_blocks ds) |},
             inr ())
        | Some st =>
            match z_array st with
            | None =>
                (put_store w store
                   {| z_foreign := z_foreign st;
                      z_array := Some (d, ds_blocks ds) |},
                 inr ())
            | Some (dim, chunks) =>
                if bool_decide (dim = d)
                then (put_store w store
                        {| z_foreign := z_foreign st;
                           z_array := Some (d, chunks ++ ds_blocks ds) |},
                      inr ())
                else (w, inl (ValueError "append_dim does not match the store"))
            end
        end
      else (w, inl (ValueError "append_dim does not match the dataset"))
  | None, _ => (w, inl (ValueError "mode"))
  end.

Definition ref_call (X : Type) (e : LibE X) (w : RefWorld) : RefWorld * (RefExn + X) :=
  match e in LibE X return RefWorld * (RefExn + X) with
  | fsspec_open url => (w, inr url)
  | OpenFile_open url =>
      (w, match files w url with
          | Some f => inr f
          | None => inl (FileNotFoundError url)
          end)
  | xr_open_mfdataset paths _ concat_dim => (w, ref_open_mfdataset paths concat_dim)
  | Dataset_chunk ds chunks => (w, ref_chunk ds chunks)
  | fsspec_get_mapper url => (w, inr url)
  | Mapper_len mapper => (w, inr (ref_len (stores w mapper)))
  | Dataset_to_zarr ds store kwargs => ref_to_zarr ds store kwargs w
  end.

#[export] Instance ref_library : Library := {|
  World := RefWorld;
  Exn := RefExn;
  lib_call := ref_call
|}.

(** The records a store holds along dimension [d], in order. *)
Definition store_rows (w : RefWorld) (url d : string) : list nat :=
  match stores w url with
  | Some st =>
      match z_array st with
      | Some (dim, chunks) => if bool_decide (dim = d) then concat chunks else []
      | None => []
      end
  | None => []
  end.

(** The records of a dataset along dimension [d], in order. *)
Definition ds_rows (ds : RefDataset) (d : string) : list nat :=
  if bool_decide (ds_dim ds = d) then concat (ds_blocks ds) else [].

(** The sizes of the blocks of a dataset, and of the chunks of the array
    stored under a locator. *)
Definition block_sizes (ds : RefDataset) : list nat := length <$> ds_blocks ds.

Definition chunk_sizes (w : RefWorld) (url : string) : option (list nat) :=
  match stores w url with
  | Some st =>
      match z_array st with
      | Some (_, chunks) => Some (length <$> chunks)
      | None => None
      end
  | None => None
  end.

(** The world of the docstring of [combine_and_write]: a dataset of 36
    time steps saved as two files of 18 steps each, and no target store. *)
Definition docstring_world : RefWorld := {|
  files := fun url =>
    if bool_decide (url = "memory://cache/0.nc")
    then Some {| nc_dim := "time"; nc_rows := seq 0 18 |}
    else if bool_decide (url = "memory://cache/1.nc")
    then Some {| nc_dim := "time"; nc_rows := seq 18 18 |}
    else None;
  stores := fun _ => None
|}.

Definition docstring_sources : list string :=
  ["memory://cache/0.nc"; "memory://cache/1.nc"].

(** The same world with one more file, laid out along another dimension. *)
Definition mixed_world : RefWorld := {|
  files := fun url =>
    if bool_decide (url = "memory://cache/lat.nc")
    then Some {| nc_dim := "lat"; nc_rows := [100; 101] |}
    else files docstring_world url;
  stores := stores docstring_world
|}.

(** A world in which the target locator already holds one key that is not
    part of any zarr array. *)
Definition foreign_key_world : RefWorld :=
  put_store docstring_world "memory://target.zarr"
    {| z_foreign := 1; z_array := None |}.

(** *** Runs of the task on these worlds *)

Definition target_url : string := "memory://target.zarr".

(** The call of the docstring, then the same call again on the world the
    previous one leaves, twice. *)
Definition first_call :=
  run (combine_and_write docstring_sources target_url "time" "time") docstring_world.

Definition second_call :=
  run (combine_and_write docstring_sources target_url "time" "time") first_call.1.1.

Definition third_call :=
  run (combine_and_write docstring_sources target_url "time" "time") second_call.1.1.

(** A call on the world left by the first call, with a source that does
    not exist. *)
Definition missing_source_call :=
  run (combine_and_write ["memory://cache/0.nc"; "memory://cache/9.nc"]
         target_url "time" "time") first_call.1.1.

(** The docstring's batch written along ["time"], then a batch laid out
    along ["lat"] appended along ["lat"] to the same target. *)
Definition time_call :=
  run (combine_and_write docstring_sources target_url "time" "time") mixed_world.

Definition lat_call :=
  run (combine_and_write ["memory://cache/lat.nc"] target_url "lat" "lat")
    time_call.1.1.

(** The call of the docstring when the target already holds a key that is
    not part of a zarr array. *)
Definition foreign_key_call :=
  run (combine_and_write docstring_sources target_url "time" "time")
    foreign_key_world.

(** The call of the docstring with an empty batch. *)
Definition empty_batch_call :=
  run (combine_and_write [] target_url "time" "time") docstring_world.

(** A world that already holds a store under another locator, and the call
    of the docstring on it. *)
Definition other_url : string := "memory://other.zarr".

Definition two_store_world : RefWorld :=
  put_store docstring_world other_url
    {| z_foreign := 0; z_array := Some ("time", [[7; 8; 9]]) |}.

Definition two_store_call :=
  run (combine_and_write docstring_sources target_url "time" "time")
    two_store_world.

End RefLib.

(** ** The provisioning declaration *)

Module Cdk.
Import Xarray.

(** The constructs of [cdk/bakery_stack.py], each with the properties the
    stack passes to it.  A property that the stack does not pass is left
    out, except for the few that a statement below needs, which are
    [None]. *)

Inductive SubnetType := PUBLIC | PRIVATE | ISOLATED.

Record SubnetConfiguration := {
  subnet_name : string;
  subnet_type : SubnetType
}.

Record Vpc := {
  vpc_id : string;
  cidr : string;
  enable_dns_hostnames : bool;
  enable_dns_support : bool;
  nat_gateways : Z;
  subnet_configuration : list SubnetConfiguration;
  max_azs : Z
}.

Record Cluster := {
  cluster_id : string;
  cluster_vpc : Vpc
}.

(** [aws_ecs.Secret.from_secrets_manager(secret=Secret.from_secret_arn(...), field=...)]. *)
Record Secret := {
  secret_id : string;
  secret_arn : string;
  field : string
}.

Record PortMapping := {
  container_port : Z;
  host_port : Z
}.

Record ContainerDefinition := {
  container_id : string;
  image_directory : string;       (* [ContainerImage.from_asset(directory=...)] *)
  port_mappings : list PortMapping;
  logging_stream_prefix : string; (* [LogDriver.aws_logs(stream_prefix=...)] *)
  secrets : dict Secret
}.

Record FargateTaskDefinition := {
  task_definition_id : string;
  cpu : Z;
  memory_limit_mib : Z;
  containers : list ContainerDefinition
}.

(** [task_definition.add_container(...)]. *)
Definition add_container (td : FargateTaskDefinition) (c : ContainerDefinition)
  : FargateTaskDefinition :=
  {| task_definition_id := task_definition_id td;
     cpu := cpu td;
     memory_limit_mib := memory_limit_mib td;
     containers := containers td ++ [c] |}.

Inductive FargatePlatformVersion := LATEST | VERSION1_4 | VERSION1_3.

Inductive PropagatedTagSource := SERVICE | TASK_DEFINITION | NONE.

(** The arguments of [target_group.configure_health_check]. *)
Record HealthCheck := {
  health_check_path : option string;
  health_check_port : option string;
  health_check_protocol : option string
}.

Record ApplicationLoadBalancedFargateService := {
  service_id : string;
  assign_public_ip : bool;
  platform_version : FargatePlatformVersion;
  desired_count : Z;
  task_definition : FargateTaskDefinition;
  cluster : Cluster;
  propagate_tags : PropagatedTagSource;
  public_load_balancer : option bool;  (* not passed by the stack *)
  health_check : option HealthCheck    (* set by [configure_health_check] *)
}.

(** [service.target_group.configure_health_check(...)]. *)
Definition configure_health_check (svc : ApplicationLoadBalancedFargateService)
    (hc : HealthCheck) : ApplicationLoadBalancedFargateService :=
  {| service_id := service_id svc;
     assign_public_ip := assign_public_ip svc;
     platform_version := platform_version svc;
     desired_count := desired_count svc;
     task_definition := task_definition svc;
     cluster := cluster svc;
     propagate_tags := propagate_tags svc;
     public_load_balancer := public_load_balancer svc;
     health_check := Some hc |}.

(** What the construct library documents for the properties the stack
    leaves out: the load balancer of an
    [ApplicationLoadBalancedFargateService] is internet-facing unless
    [public_load_balancer=False] is passed, and the health check of an
    application target group uses HTTP unless a protocol is passed. *)
Definition internet_facing (svc : ApplicationLoadBalancedFargateService) : bool :=
  default true (public_load_balancer svc).

Definition effective_protocol (hc : HealthCheck) : string :=
  default "HTTP" (health_check_protocol hc).

Record Stack := {
  vpc : Vpc;
  stack_cluster : Cluster;
  prefect_ecs_agent_task_definition : FargateTaskDefinition;
  prefect_ecs_agent_service : ApplicationLoadBalancedFargateService
}.

Inductive KeyError := mkKeyError (key : string).

(** [str(n)] for a Python int. *)
Definition str (n : Z) : string := NilZero.string_of_int (Z.to_int n).

(** [BakeryStack.__init__] (bakery_stack.py, lines 14-75); [environ] is
    [os.environ]. *)
Definition BakeryStack (environ : string -> option string) (identifier : string)
  : KeyError + Stack :=
  let vpc :=
    {| vpc_id := "bakery-vpc-" +:+ identifier;
       cidr := "10.0.0.0/16";
       enable_dns_hostnames := true;
       enable_dns_support := true;
       nat_gateways := 0;
       subnet_configuration :=
         [{| subnet_name := "PublicSubnet1"; subnet_type := PUBLIC |}];
       max_azs := 3 |} in
  let cluster :=
    {| cluster_id := "bakery-cluster-" +:+ identifier; cluster_vpc := vpc |} in
  let prefect_ecs_agent_task_definition :=
    {| task_definition_id := "prefect-ecs-agent-task-definition-" +:+ identifier;
       cpu := 512;
       memory_limit_mib := 2048;
       containers := [] |} in
  match environ "RUNNER_TOKEN_SECRET_ARN" with
  | None => inl (mkKeyError "RUNNER_TOKEN_SECRET_ARN")
  | Some arn =>
      let runner_token_secret :=
        {| secret_id := "prefect-cloud-runner-token-" +:+ identifier;
           secret_arn := arn;
           field := "RUNNER_TOKEN" |} in
      let prefect_ecs_agent_task_definition :=
        add_container prefect_ecs_agent_task_definition
          {| container_id := "prefect-ecs-agent-task-container-" +:+ identifier;
             image_directory := "cdk/agent";
             port_mappings := [{| container_port := 8080; host_port := 8080 |}];
             logging_stream_prefix := "ecs-agent";
             secrets := [("PREFECT__CLOUD__AGENT__AUTH_TOKEN", runner_token_secret)] |} in
      let prefect_ecs_agent_service :=
        {| service_id := "prefect-ecs-agent-service-" +:+ identifier;
           assign_public_ip := true;
           platform_version := LATEST;
           desired_count := 1;
           task_definition := prefect_ecs_agent_task_definition;
           cluster := cluster;
           propagate_tags := SERVICE;
           public_load_balancer := None;
           health_check := None |} in
      let prefect_ecs_agent_service :=
        configure_health_check prefect_ecs_agent_service
          {| health_check_path := Some "/api/health";
             health_check_port := Some "8080";
             health_check_protocol := None |} in
      inr {| vpc := vpc;
             stack_cluster := cluster;
             prefect_ecs_agent_task_definition := prefect_ecs_agent_task_definition;
             prefect_ecs_agent_service := prefect_ecs_agent_service |}
  end.


(** An environment that names the secret. *)
Definition dev_environ (key : string) : option string :=
  if bool_decide (key = "RUNNER_TOKEN_SECRET_ARN")
  then Some "arn:aws:secretsmanager:token" else None.

End Cdk.

(* ===================================================================== *)
(** * Part II: theorems *)
(* ===================================================================== *)

Module PartitionFacts.
Import Partition.

Section Chunked.
Context {A : Type}.
Implicit Types (l : list A) (n : nat).

Lemma chunked_nil n : chunked_iterable (@nil A) n = [].
Proof. by simp chunked_iterable. Qed.

Lemma chunked_step l n :
  0 < n -> l <> [] ->
  chunked_iterable l n = take n l :: chunked_iterable (drop n l) n.
Proof.
  intros Hn Hl. destruct n as [|n]; [lia|]. destruct l as [|x l]; [done|].
  by simp chunked_iterable.
Qed.

Lemma chunked_concat l n : 0 < n -> concat (chunked_iterable l n) = l.
Proof.
  intros Hn. funelim (chunked_iterable l n); simp chunked_iterable; [done|lia|].
  rewrite concat_cons, H by lia. apply take_drop.
Qed.

Lemma chunked_eq_nil l n : 0 < n -> chunked_iterable l n = [] -> l = [].
Proof.
  intros Hn. destruct l as [|x l]; [done|].
  rewrite chunked_step by done. discriminate.
Qed.

Lemma chunked_full_tuples l n i c :
  0 < n -> chunked_iterable l n !! i = Some c ->
  i + 1 < length (chunked_iterable l n) -> length c = n.
Proof.
  intros Hn. revert i c.
  funelim (chunked_iterable l n); simp chunked_iterable; [done|lia|].
  remember (drop (S n) (x :: xs)) as tl eqn:Htl.
  remember (take (S n) (x :: xs)) as hd eqn:Hhd.
  intros [|i] c Hc Hi; simpl in Hc, Hi.
  - injection Hc as <-.
    assert (tl <> []) as Hne.
    { intros E. rewrite E, chunked_nil in Hi. simpl in Hi. lia. }
    assert (length tl <> 0) as Hlen by (by destruct tl).
    subst hd tl. rewrite length_take. rewrite length_drop in Hlen. lia.
  - apply (H Hn i c Hc). lia.
Qed.

Lemma chunked_last_tuple l n c :
  0 < n -> last (chunked_iterable l n) = Some c ->
  length c = if decide (length l mod n = 0) then n else length l mod n.
Proof.
  intros Hn. revert c.
  funelim (chunked_iterable l n); simp chunked_iterable; [done|lia|].
  remember (drop (S n) (x :: xs)) as tl eqn:Htl.
  remember (take (S n) (x :: xs)) as hd eqn:Hhd.
  assert (length (x :: xs) = length hd + length tl) as Hsplit.
  { subst hd tl. by rewrite <- length_app, take_drop. }
  assert (length hd = S n `min` length (x :: xs)) as Hhdlen.
  { subst hd. apply length_take. }
  intros c Hc.
  destruct (chunked_iterable tl (S n)) as [|c' cs] eqn:Hrest.
  - apply chunked_eq_nil in Hrest; [|done]. subst tl.
    rewrite Hrest in Hsplit. simpl in Hc. injection Hc as <-.
    rewrite Nat.add_0_r in Hsplit. rewrite Hsplit.
    destruct (decide (length hd = S n)) as [E|E].
    + rewrite E, Nat.Div0.mod_same. by rewrite decide_True.
    + rewrite Nat.mod_small by lia.
      rewrite decide_False; [done|]. rewrite Hsplit in Hhdlen. simpl in *. lia.
  - rewrite last_cons in Hc.
    assert (last (c' :: cs) = Some c) as Hlast
      by (destruct (last (c' :: cs)) eqn:E; [done|by apply last_None in E]).
    rewrite (H Hn c Hlast).
    assert (tl <> []) as Hne
      by (intros E; rewrite E, chunked_nil in Hrest; done).
    assert (length tl <> 0) by (by destruct tl).
    assert (length hd = S n) as Hfull.
    { subst tl. rewrite length_drop in *. lia. }
    rewrite Hsplit, Hfull.
    replace (S n + length tl) with (length tl + 1 * S n) by lia.
    by rewrite Nat.Div0.mod_add.
Qed.

Example chunk_docstring : chunk [1; 2; 3; 4; 5] 2 = [[1; 2]; [3; 4]; [5]].
Proof. reflexivity. Qed.

Example chunk_empty : chunk (@nil nat) 3 = [].
Proof. reflexivity. Qed.

(** C3.  For every sequence [S] and every positive [n], the tuples of
    [chunk S n] concatenated in order give back [S]; every tuple but the
    last has length [n]; the last tuple has length [length S mod n], or [n]
    when [n] divides [length S]; a non-empty [S] does have a last tuple,
    and the empty sequence gives no tuple. *)
Theorem chunk_partitions (S : list A) (n : nat) :
  0 < n ->
  concat (chunk S n) = S
  /\ (forall i c, chunk S n !! i = Some c -> i + 1 < length (chunk S n) ->
        length c = n)
  /\ (forall c, last (chunk S n) = Some c ->
        length c = if decide (length S mod n = 0) then n else length S mod n)
  /\ (S <> [] -> is_Some (last (chunk S n)))
  /\ chunk (@nil A) n = [].
Proof.
  intros Hn. unfold chunk. split; [|split; [|split; [|split]]].
  - by apply chunked_concat.
  - intros i c. by apply chunked_full_tuples.
  - intros c. by apply chunked_last_tuple.
  - intros HS. destruct (last (chunked_iterable S n)) eqn:E; [by eexists|].
    apply last_None, chunked_eq_nil in E; done.
  - apply chunked_nil.
Qed.

End Chunked.

Lemma chunk_partitions_witness :
  0 < 2
  /\ chunk [1; 2; 3; 4; 5] 2 = [[1; 2]; [3; 4]; [5]]
  /\ concat (chunk [1; 2; 3; 4; 5] 2) = [1; 2; 3; 4; 5]
  /\ (forall i c, chunk [1; 2; 3; 4; 5] 2 !! i = Some c ->
        i + 1 < length (chunk [1; 2; 3; 4; 5] 2) -> length c = 2)
  /\ (forall c, last (chunk [1; 2; 3; 4; 5] 2) = Some c ->
        length c = if decide (length [1; 2; 3; 4; 5] mod 2 = 0) then 2
                   else length [1; 2; 3; 4; 5] mod 2)
  /\ ([1; 2; 3; 4; 5] <> [] -> is_Some (last (chunk [1; 2; 3; 4; 5] 2)))
  /\ chunk (@nil nat) 2 = [].
Proof.
  split; [lia|]. split; [reflexivity|].
  apply (chunk_partitions [1; 2; 3; 4; 5] 2). lia.
Defined.

End PartitionFacts.

Module XarrayFacts.
Import Xarray.

Section Runs.
Context `{Library}.

Lemma run_bind {A B : Type} (p : Prog A) (f : A -> Prog B) (w : World) :
  run (bind p f) w =
    match run p w with
    | (w1, tr1, inl exn) => (w1, tr1, inl exn)
    | (w1, tr1, inr a) => let '(w2, tr2, r) := run (f a) w1 in (w2, tr1 ++ tr2, r)
    end.
Proof.
  revert w. induction p as [a|X e k IH]; intros w; simpl.
  - by destruct (run (f a) w) as [[w2 tr2] r].
  - destruct (lib_call e w) as [w1 [exn|x]]; [done|].
    rewrite IH. destruct (run (k x) w1) as [[w2 tr] [exn|a]]; [done|].
    by destruct (run (f a) w2) as [[w3 tr2] r].
Qed.

Lemma run_mbind {A B : Type} (p : Prog A) (f : A -> Prog B) (w : World) :
  run (p ≫= f) w =
    match run p w with
    | (w1, tr1, inl exn) => (w1, tr1, inl exn)
    | (w1, tr1, inr a) => let '(w2, tr2, r) := run (f a) w1 in (w2, tr1 ++ tr2, r)
    end.
Proof. apply run_bind. Qed.

(** Opening the sources: either every source opens, and the trace is
    [open_trace] on the objects returned, or some call raises. *)
Lemma run_open_all (sources : list string) (w w1 : World) tr fs :
  run (list_comp double_open sources) w = (w1, tr, inr fs) ->
  exists ofs, length ofs = length sources /\ length fs = length sources
    /\ tr = open_trace sources ofs fs.
Proof.
  revert w w1 tr fs. induction sources as [|url sources IH]; intros w w1 tr fs.
  - simpl. intros [= <- <- <-]. by exists [].
  - cbn [list_comp]. rewrite run_mbind.
    unfold double_open at 1. simpl.
    destruct (lib_call (fsspec_open url) w) as [wa [exn|f]]; [done|].
    destruct (lib_call (OpenFile_open f) wa) as [wb [exn|file]]; [done|].
    rewrite run_mbind.
    destruct (run (list_comp double_open sources) wb) as [[wc trc] [exn|files]] eqn:E;
      [done|].
    simpl. intros [= <- <- <-].
    destruct (IH _ _ _ _ E) as (ofs & ? & ? & ->).
    exists (f :: ofs). split_and!; simpl; [lia|lia|]. by rewrite app_nil_r.
Qed.

Lemma open_trace_calls (sources : list string) ofs fs :
  Forall (fun o => is_open_call (obs_call o) = true) (open_trace sources ofs fs).
Proof.
  revert ofs fs. induction sources as [|url sources IH]; intros [|f ofs] [|file fs];
    simpl; repeat constructor. apply IH.
Qed.

Lemma run_open_calls (sources : list string) (w w1 : World) tr r :
  run (list_comp double_open sources) w = (w1, tr, r) ->
  Forall (fun o => is_open_call (obs_call o) = true) tr.
Proof.
  revert w w1 tr r. induction sources as [|url sources IH]; intros w w1 tr r.
  - simpl. intros [= <- <- <-]. constructor.
  - cbn [list_comp]. rewrite run_mbind.
    unfold double_open at 1. simpl.
    destruct (lib_call (fsspec_open url) w) as [wa [exn|f]].
    { intros [= <- <- <-]. by repeat constructor. }
    destruct (lib_call (OpenFile_open f) wa) as [wb [exn|file]].
    { intros [= <- <- <-]. by repeat constructor. }
    rewrite run_mbind.
    destruct (run (list_comp double_open sources) wb) as [[wc trc] [exn|files]] eqn:E;
      simpl; intros [= <- <- <-]; repeat constructor; simpl; try done.
    + by eapply IH.
    + rewrite app_nil_r. by eapply IH.
Qed.

(** Every run of the task has one of two shapes: opening the sources
    raised, or the sources opened and the remaining calls ran as
    [after_open] describes. *)
Lemma run_combine_and_write sources target append_dim concat_dim (w w' : World) tr r :
  run (combine_and_write sources target append_dim concat_dim) w = (w', tr, r) ->
  (exists exn, r = inl exn
     /\ run (list_comp double_open sources) w = (w', tr, inl exn))
  \/ (exists w1 ofs fs tr2,
        run (list_comp double_open sources) w = (w1, open_trace sources ofs fs, inr fs)
        /\ length ofs = length sources /\ length fs = length sources
        /\ after_open (length sources) target append_dim concat_dim fs w1 w' tr2 r
        /\ tr = open_trace sources ofs fs ++ tr2).
Proof.
  unfold combine_and_write. rewrite run_mbind.
  destruct (run (list_comp double_open sources) w) as [[w1 tr1] [exn|fs]] eqn:Hopen.
  { intros [= <- <- <-]. left. by exists exn. }
  destruct (run_open_all _ _ _ _ _ Hopen) as (ofs & Hofs & Hfs & ->).
  intros Hrun. right. exists w1, ofs, fs. simpl in Hrun.
  destruct (lib_call (xr_open_mfdataset fs "nested" concat_dim) w1)
    as [w2 [exn|ds]] eqn:Hcombine.
  { injection Hrun as <- <- <-. eexists. split_and!; try done. by constructor. }
  destruct (lib_call (Dataset_chunk ds [(append_dim, length sources)]) w2)
    as [w3 [exn|ds']] eqn:Hchunk.
  { injection Hrun as <- <- <-. eexists. split_and!; try done.
    by eapply rechunk_raises. }
  destruct (lib_call (fsspec_get_mapper target) w3) as [w4 [exn|mapper]] eqn:Hmapper.
  { injection Hrun as <- <- <-. eexists. split_and!; try done.
    by eapply get_mapper_raises. }
  destruct (lib_call (Mapper_len mapper) w4) as [w5 [exn|n]] eqn:Hlen.
  { injection Hrun as <- <- <-. eexists. split_and!; try done.
    by eapply len_raises. }
  change (if py_not n then _ else _) with (write_kwargs n append_dim) in Hrun.
  destruct (lib_call (Dataset_to_zarr ds' mapper (write_kwargs n append_dim)) w5)
    as [w6 [exn|[]]] eqn:Hwrite.
  - injection Hrun as <- <- <-. eexists. split_and!; try done.
    by eapply (write_reached _ _ _ _ _ _ _ _ _ _ _ _ _ _ _ (inl exn)).
  - injection Hrun as <- <- <-. eexists. split_and!; try done.
    by eapply (write_reached _ _ _ _ _ _ _ _ _ _ _ _ _ _ _ (inr ())).
Qed.

(** *** Exceptions and reads, for any program *)

(** A run that ends with an exception ends at the call that raised it: no
    earlier call raised, no call follows, and the world left behind is the
    one that call left. *)
Lemma run_raises {A : Type} (p : Prog A) (w w' : World) tr exn :
  run p w = (w', tr, inl exn) ->
  exists tr0 (X : Type) (e : LibE X) w0,
    tr = tr0 ++ [mkObs e (inl exn)]
    /\ lib_call e w0 = (w', inl exn)
    /\ Forall (fun o => obs_raised o = None) tr0.
Proof.
  revert w w' tr. induction p as [a|X e k IH]; intros w w' tr; simpl; [done|].
  destruct (lib_call e w) as [w1 [exn1|x]] eqn:Hcall.
  - intros [= <- <- <-]. by exists [], X, e, w.
  - destruct (run (k x) w1) as [[w2 tr2] r2] eqn:Hrun. intros [= <- <- ->].
    destruct (IH _ _ _ _ Hrun) as (tr0 & Y & e' & w0 & -> & Hraise & Hok).
    exists (mkObs e (inr x) :: tr0), Y, e', w0. split_and!; try done.
    by constructor.
Qed.

(** A run that returns made no call that raised. *)
Lemma run_returns {A : Type} (p : Prog A) (w w' : World) tr (a : A) :
  run p w = (w', tr, inr a) -> Forall (fun o => obs_raised o = None) tr.
Proof.
  revert w w' tr. induction p as [a'|X e k IH]; intros w w' tr; simpl.
  - intros [= <- <- <-]. constructor.
  - destruct (lib_call e w) as [w1 [exn1|x]] eqn:Hcall; [done|].
    destruct (run (k x) w1) as [[w2 tr2] r2] eqn:Hrun. intros [= <- <- ->].
    constructor; [done|]. by eapply IH.
Qed.

(** What no read changes is not changed by a run that only reads. *)
Lemma run_reads_only {A S : Type} (view : World -> S) (p : Prog A) (w w' : World) tr r :
  (forall (X : Type) (e : LibE X) w0,
     is_read e = true -> view (lib_call e w0).1 = view w0) ->
  run p w = (w', tr, r) ->
  Forall (fun o => is_read (obs_call o) = true) tr ->
  view w' = view w.
Proof.
  intros Hframe. revert w w' tr r.
  induction p as [a|X e k IH]; intros w w' tr r; simpl.
  - by intros [= <- <- <-].
  - pose proof (Hframe X e w) as He.
    destruct (lib_call e w) as [w1 [exn1|x]] eqn:Hcall.
    + intros [= <- <- <-] Hreads. apply Forall_cons_1 in Hreads as [Hr _]. auto.
    + destruct (run (k x) w1) as [[w2 tr2] r2] eqn:Hrun. intros [= <- <- <-] Hreads.
      apply Forall_cons_1 in Hreads as [Hr Hreads].
      rewrite (IH _ _ _ _ _ Hrun Hreads). auto.
Qed.

(** *** Reading the trace of a run *)

Lemma omap_open_calls {B : Type} (f : Obs -> option B) (tr : list Obs) :
  (forall o, is_open_call (obs_call o) = true -> f o = None) ->
  Forall (fun o => is_open_call (obs_call o) = true) tr ->
  omap f tr = [].
Proof.
  intros Hf. induction 1 as [|o tr Ho _ IH]; [done|].
  simpl. by rewrite (Hf o Ho).
Qed.

Lemma open_call_not_combine o :
  is_open_call (obs_call o) = true -> obs_combine o = None.
Proof. by destruct o as [X [] r]. Qed.

Lemma open_call_not_rechunk o :
  is_open_call (obs_call o) = true -> obs_rechunk o = None.
Proof. by destruct o as [X [] r]. Qed.

Lemma open_call_not_rechunked o :
  is_open_call (obs_call o) = true -> obs_rechunked o = None.
Proof. by destruct o as [X [] r]. Qed.

Lemma open_call_not_mapper o :
  is_open_call (obs_call o) = true -> obs_mapper o = None.
Proof. by destruct o as [X [] r]. Qed.

Lemma open_call_not_len o :
  is_open_call (obs_call o) = true -> obs_len o = None.
Proof. by destruct o as [X [] r]. Qed.

Lemma open_call_not_write o :
  is_open_call (obs_call o) = true -> obs_write o = None.
Proof. by destruct o as [X [] r]. Qed.

Lemma open_call_is_read o :
  is_open_call (obs_call o) = true -> is_read (obs_call o) = true.
Proof. by destruct o as [X [] r]. Qed.

Lemma open_trace_ok sources ofs fs :
  Forall (fun o => obs_raised o = None) (open_trace sources ofs fs).
Proof.
  revert ofs fs. induction sources as [|url sources IH]; intros [|f ofs] [|file fs];
    simpl; repeat constructor. apply IH.
Qed.

End Runs.

Create HintDb trace.
#[global] Hint Resolve open_call_not_combine open_call_not_rechunk
  open_call_not_rechunked open_call_not_mapper open_call_not_len
  open_call_not_write open_trace_calls : trace.

(** Computes a projection of a trace made of an opening part and a
    literal tail. *)
Ltac read_trace :=
  rewrite ?omap_app;
  repeat (rewrite (omap_open_calls _ (open_trace _ _ _)) by eauto with trace);
  simpl.

(** The five shapes of [after_open], with the names used in its
    definition. *)
Ltac after_open_cases Hafter :=
  destruct Hafter as
    [ w2 exn Hcombine
    | w2 ds w3 exn Hcombine Hchunk
    | w2 ds w3 ds' w4 exn Hcombine Hchunk Hmapper
    | w2 ds w3 ds' w4 mapper w5 exn Hcombine Hchunk Hmapper Hlen
    | w2 ds w3 ds' w4 mapper w5 n w6 res Hcombine Hchunk Hmapper Hlen Hwrite ].

Section Task.
Context `{Library}.
Implicit Types (sources : list string) (target append_dim concat_dim : string).
Implicit Types (w : World) (tr : list Obs).

(** A run that returns went through all the calls. *)
Lemma run_combine_and_write_returns
    sources target append_dim concat_dim w w' tr (result : string) :
  run (combine_and_write sources target append_dim concat_dim) w
    = (w', tr, inr result) ->
  exists w1 ofs fs w2 ds w3 ds' w4 mapper w5 n,
    run (list_comp double_open sources) w = (w1, open_trace sources ofs fs, inr fs)
    /\ lib_call (xr_open_mfdataset fs "nested" concat_dim) w1 = (w2, inr ds)
    /\ lib_call (Dataset_chunk ds [(append_dim, length sources)]) w2 = (w3, inr ds')
    /\ lib_call (fsspec_get_mapper target) w3 = (w4, inr mapper)
    /\ lib_call (Mapper_len mapper) w4 = (w5, inr n)
    /\ lib_call (Dataset_to_zarr ds' mapper (write_kwargs n append_dim)) w5
         = (w', inr ())
    /\ tr = open_trace sources ofs fs ++
         [mkObs (xr_open_mfdataset fs "nested" concat_dim) (inr ds);
          mkObs (Dataset_chunk ds [(append_dim, length sources)]) (inr ds');
          mkObs (fsspec_get_mapper target) (inr mapper);
          mkObs (Mapper_len mapper) (inr n);
          mkObs (Dataset_to_zarr ds' mapper (write_kwargs n append_dim)) (inr ())].
Proof.
  intros Hrun. apply run_combine_and_write in Hrun
    as [(exn & [=] & _)|(w1 & ofs & fs & tr2 & Hopen & _ & _ & Hafter & ->)].
  inversion Hafter
    as [| | | |w2 ds w3 ds' w4 mapper w5 n w6 res Hc Hk Hm Hl Hw Hw6 Htr Hres].
  destruct res as [exn|[]]; [done|]. subst.
  by exists w1, ofs, fs, w2, ds, w3, ds', w4, mapper, w5, n.
Qed.

(** C5.  When a call of [combine_and_write] returns, the value returned is
    the target locator it was given. *)
Theorem combine_and_write_returns_target
    sources target append_dim concat_dim w w' tr (result : string) :
  run (combine_and_write sources target append_dim concat_dim) w
    = (w', tr, inr result) ->
  result = target.
Proof.
  intros Hrun. apply run_combine_and_write in Hrun
    as [(exn & [=] & _)|(w1 & ofs & fs & tr2 & _ & _ & _ & Hafter & _)].
  inversion Hafter as [| | | |w2 ds w3 ds' w4 mapper w5 n w6 res _ _ _ _ _ Hw Htr Hres].
  destruct res as [exn|[]]; by inversion Hres.
Qed.

(** C9.  The keyword arguments of the write depend on the number [n] of
    keys that [len(mapper)] returned and on nothing else: the call that
    follows [len(mapper)] is [to_zarr] on the same mapper, in mode ["w"]
    when [n = 0] and in mode ["a"] with the append dimension when
    [1 <= n]; nothing else about the target is inspected in between.  A run
    in which [len(mapper)] did not return makes no write. *)
Theorem combine_and_write_mode_by_key_count
    sources target append_dim concat_dim w w' tr r :
  run (combine_and_write sources target append_dim concat_dim) w = (w', tr, r) ->
  (omap obs_len tr = [] /\ omap obs_write tr = [])
  \/ (exists ds mapper n kwargs tr0 res,
        omap obs_len tr = [(mapper, n)]
        /\ omap obs_write tr = [(ds, mapper, kwargs)]
        /\ tr = tr0 ++ [mkObs (Mapper_len mapper) (inr n);
                        mkObs (Dataset_to_zarr ds mapper kwargs) res]
        /\ (n = 0 -> kwargs = [("mode", "w")])
        /\ (1 <= n -> kwargs = [("mode", "a"); ("append_dim", append_dim)])).
Proof.
  intros Hrun. apply run_combine_and_write in Hrun
    as [(exn & -> & Hopen)|(w1 & ofs & fs & tr2 & _ & _ & _ & Hafter & ->)].
  { apply run_open_calls in Hopen. left.
    split; apply omap_open_calls; eauto with trace. }
  after_open_cases Hafter; try (left; by read_trace).
  right. eexists ds', mapper, n, _,
    (open_trace sources ofs fs ++
       [mkObs (xr_open_mfdataset fs "nested" concat_dim) (inr ds);
        mkObs (Dataset_chunk ds [(append_dim, length sources)]) (inr ds');
        mkObs (fsspec_get_mapper target) (inr mapper)]), res.
  split_and!.
  - by read_trace.
  - by read_trace.
  - by rewrite <- app_assoc.
  - by intros ->.
  - intros Hn. by destruct n; [lia|].
Qed.

(** C4.  In every run, either opening the sources raised and
    [xr.open_mfdataset] was not called, or the trace starts with one
    [fsspec.open(url).open()] per source, in the order of [sources], and
    continues with the one call to [xr.open_mfdataset]: its first argument
    is the list [fs] of the files returned, one per source and in that
    order, with [combine="nested"] and the concat dimension.  Nothing
    happens to the list between the opening and the combining. *)
Theorem combine_and_write_combines_in_order
    sources target append_dim concat_dim w w' tr r :
  run (combine_and_write sources target append_dim concat_dim) w = (w', tr, r) ->
  (omap obs_combine tr = [] /\ exists exn, r = inl exn)
  \/ (exists ofs fs res rest,
        length ofs = length sources /\ length fs = length sources
        /\ tr = open_trace sources ofs fs
                  ++ mkObs (xr_open_mfdataset fs "nested" concat_dim) res :: rest
        /\ omap obs_combine tr = [(fs, "nested", concat_dim)]).
Proof.
  intros Hrun. apply run_combine_and_write in Hrun
    as [(exn & -> & Hopen)|(w1 & ofs & fs & tr2 & _ & Hofs & Hfs & Hafter & ->)].
  { apply run_open_calls in Hopen. left. split; [|by eexists].
    apply omap_open_calls; eauto with trace. }
  right. exists ofs, fs.
  after_open_cases Hafter; eexists _, _; (split_and!; [done|done|done|by read_trace]).
Qed.

(** C8.  Let [view] be anything about the world that no read of the
    libraries changes (the content under the target locator, say).  A run
    that makes no [to_zarr] call leaves [view] as it was, and these are the
    runs that fail while opening, combining, re-chunking, getting the
    mapper or counting its keys.  In any other run the [to_zarr] call is
    the last call, every call before it is a read, and [to_zarr] starts
    from a world with the initial [view]. *)
Theorem combine_and_write_only_write_mutates {S : Type} (view : World -> S)
    sources target append_dim concat_dim w w' tr r :
  (forall (X : Type) (e : LibE X) w0,
     is_read e = true -> view (lib_call e w0).1 = view w0) ->
  run (combine_and_write sources target append_dim concat_dim) w = (w', tr, r) ->
  (omap obs_write tr = [] -> view w' = view w)
  /\ ((omap obs_write tr = [] /\ exists exn, r = inl exn)
      \/ (exists tr0 ds mapper kwargs w5 res,
            tr = tr0 ++ [mkObs (Dataset_to_zarr ds mapper kwargs) res]
            /\ Forall (fun o => is_read (obs_call o) = true) tr0
            /\ lib_call (Dataset_to_zarr ds mapper kwargs) w5 = (w', res)
            /\ view w5 = view w)).
Proof.
  intros Hframe Hrun.
  assert (forall (X : Type) (e : LibE X) w0 w1 res,
            lib_call e w0 = (w1, res) -> is_read e = true -> view w1 = view w0)
    as Hstep.
  { intros X e w0 w1 res Hcall He. specialize (Hframe X e w0 He).
    by rewrite Hcall in Hframe. }
  apply run_combine_and_write in Hrun
    as [(exn & -> & Hopen)|(w1 & ofs & fs & tr2 & Hopen & _ & _ & Hafter & ->)].
  { pose proof (run_open_calls _ _ _ _ _ Hopen) as Hcalls. split.
    - intros _. eapply (run_reads_only view); [done|done|].
      eapply Forall_impl; [done|]. apply open_call_is_read.
    - left. split; [|by eexists]. apply omap_open_calls; eauto with trace. }
  assert (view w1 = view w) as Hw1.
  { eapply (run_reads_only view); [done|done|].
    eapply Forall_impl; [apply open_trace_calls|]. apply open_call_is_read. }
  assert (Forall (fun o => is_read (obs_call o) = true) (open_trace sources ofs fs))
    as Hreads.
  { eapply Forall_impl; [apply open_trace_calls|]. apply open_call_is_read. }
  after_open_cases Hafter.
  - split; [|left; split; [by read_trace|by eexists]].
    intros _. rewrite <- Hw1. by eapply Hstep.
  - split; [|left; split; [by read_trace|by eexists]].
    intros _. rewrite <- Hw1.
    etrans; [by eapply Hstep|]. by eapply Hstep.
  - split; [|left; split; [by read_trace|by eexists]].
    intros _. rewrite <- Hw1.
    etrans; [by eapply Hstep|]. etrans; [by eapply Hstep|]. by eapply Hstep.
  - split; [|left; split; [by read_trace|by eexists]].
    intros _. rewrite <- Hw1.
    etrans; [by eapply Hstep|]. etrans; [by eapply Hstep|].
    etrans; [by eapply Hstep|]. by eapply Hstep.
  - split; [by read_trace|]. right.
    exists (open_trace sources ofs fs ++
       [mkObs (xr_open_mfdataset fs "nested" concat_dim) (inr ds);
        mkObs (Dataset_chunk ds [(append_dim, length sources)]) (inr ds');
        mkObs (fsspec_get_mapper target) (inr mapper);
        mkObs (Mapper_len mapper) (inr n)]),
      ds', mapper, (write_kwargs n append_dim), w5, res.
    split_and!.
    + by rewrite <- app_assoc.
    + apply Forall_app. split; [done|]. by repeat constructor.
    + done.
    + rewrite <- Hw1.
      etrans; [by eapply Hstep|]. etrans; [by eapply Hstep|].
      etrans; [by eapply Hstep|]. by eapply Hstep.
Qed.

(** The one re-chunking the task asks for: chunks of [len(sources)]
    records along the append dimension, on the dataset that
    [xr.open_mfdataset] returned. *)
Lemma combine_and_write_rechunk_request
    sources target append_dim concat_dim w w' tr r :
  run (combine_and_write sources target append_dim concat_dim) w = (w', tr, r) ->
  omap obs_rechunk tr = []
  \/ exists ds, omap obs_rechunk tr = [(ds, [(append_dim, length sources)])].
Proof.
  intros Hrun. apply run_combine_and_write in Hrun
    as [(exn & -> & Hopen)|(w1 & ofs & fs & tr2 & _ & _ & _ & Hafter & ->)].
  { apply run_open_calls in Hopen. left.
    apply omap_open_calls; eauto with trace. }
  after_open_cases Hafter; first [left; by read_trace|right; eexists; by read_trace].
Qed.

(** In every run the outcome is an exception exactly when the last call
    raised it. *)
Lemma combine_and_write_raises_last
    sources target append_dim concat_dim w w' tr r :
  run (combine_and_write sources target append_dim concat_dim) w = (w', tr, r) ->
  match r with
  | inl exn =>
      exists tr0 (X : Type) (e : LibE X) w0,
        tr = tr0 ++ [mkObs e (inl exn)]
        /\ lib_call e w0 = (w', inl exn)
        /\ Forall (fun o => obs_raised o = None) tr0
  | inr _ => Forall (fun o => obs_raised o = None) tr
  end.
Proof.
  destruct r as [exn|result]; intros Hrun.
  - by eapply run_raises.
  - by eapply run_returns.
Qed.

End Task.

(** ** What the task does to the store, given what the libraries do *)

Section Contract.
Context `{Library}.
Context {Row : Type}.

(** [rows w url d]: the records that the store at [url] holds along
    dimension [d] in world [w]; [data ds d]: the records of a dataset along
    [d]; [locator mapper]: the locator a mapper was made for. *)
Variable rows : World -> string -> string -> list Row.
Variable data : Dataset -> string -> list Row.
Variable locator : Mapper -> string.

(** The part of the libraries' contract that the task relies on. *)
Hypothesis reads_keep_rows : forall (X : Type) (e : LibE X) w0,
  is_read e = true -> rows (lib_call e w0).1 = rows w0.
Hypothesis get_mapper_locator : forall url w0 w1 mapper,
  lib_call (fsspec_get_mapper url) w0 = (w1, inr mapper) -> locator mapper = url.
Hypothesis to_zarr_w : forall ds mapper w0 w1,
  lib_call (Dataset_to_zarr ds mapper [("mode", "w")]) w0 = (w1, inr ()) ->
  forall d, rows w1 (locator mapper) d = data ds d.
Hypothesis to_zarr_a : forall ds mapper d w0 w1,
  lib_call (Dataset_to_zarr ds mapper [("mode", "a"); ("append_dim", d)]) w0
    = (w1, inr ()) ->
  rows w1 (locator mapper) d = rows w0 (locator mapper) d ++ data ds d.

(** The store seen by the write is the store the task started from. *)
Lemma rows_before_write
    sources target append_dim concat_dim
    (w w1 w2 w3 w4 w5 : World) tr fs ds ds' mapper n :
  run (list_comp double_open sources) w = (w1, tr, inr fs) ->
  lib_call (xr_open_mfdataset fs "nested" concat_dim) w1 = (w2, inr ds) ->
  lib_call (Dataset_chunk ds [(append_dim, length sources)]) w2 = (w3, inr ds') ->
  lib_call (fsspec_get_mapper target) w3 = (w4, inr mapper) ->
  lib_call (Mapper_len mapper) w4 = (w5, inr n) ->
  rows w5 = rows w.
Proof.
  intros Hopen Hc Hk Hm Hl.
  assert (forall (X : Type) (e : LibE X) w0 w1 res,
            lib_call e w0 = (w1, res) -> is_read e = true -> rows w1 = rows w0)
    as Hstep.
  { intros X e w0 wn res Hcall He. specialize (reads_keep_rows X e w0 He).
    by rewrite Hcall in reads_keep_rows. }
  rewrite (Hstep _ _ _ _ _ Hl eq_refl), (Hstep _ _ _ _ _ Hm eq_refl),
    (Hstep _ _ _ _ _ Hk eq_refl), (Hstep _ _ _ _ _ Hc eq_refl).
  eapply (run_reads_only rows); [done|done|].
  eapply Forall_impl; [by eapply run_open_calls|]. apply open_call_is_read.
Qed.

(** C1.  In a run that returns, [len(mapper)] returned some [n] for the
    mapper of the target and one dataset [ds], the re-chunked one, was
    written.  If [n = 0] (the target is empty or does not exist) the write
    is [to_zarr(mapper, mode="w")] and the store then holds the records of
    [ds] and nothing else, along every dimension; if [n <> 0] the write is
    [to_zarr(mapper, mode="a", append_dim=append_dim)] and the store then
    holds, along the append dimension, the records it held before the call
    followed by those of [ds]. *)
Theorem combine_and_write_creates_or_appends
    sources target append_dim concat_dim (w w' : World) tr (result : string) :
  run (combine_and_write sources target append_dim concat_dim) w
    = (w', tr, inr result) ->
  exists ds mapper n,
    omap obs_rechunked tr = [ds]
    /\ omap obs_len tr = [(mapper, n)]
    /\ locator mapper = target
    /\ (n = 0 ->
          omap obs_write tr = [(ds, mapper, [("mode", "w")])]
          /\ forall d, rows w' target d = data ds d)
    /\ (n <> 0 ->
          omap obs_write tr
            = [(ds, mapper, [("mode", "a"); ("append_dim", append_dim)])]
          /\ rows w' target append_dim
               = rows w target append_dim ++ data ds append_dim).
Proof.
  intros Hrun. apply run_combine_and_write_returns in Hrun
    as (w1 & ofs & fs & w2 & ds & w3 & ds' & w4 & mapper & w5 & n
        & Hopen & Hc & Hk & Hm & Hl & Hw & ->).
  pose proof (get_mapper_locator _ _ _ _ Hm) as Hloc.
  pose proof (rows_before_write _ _ _ _ _ _ _ _ _ _ _ _ _ _ _ _
                Hopen Hc Hk Hm Hl) as Hrows.
  exists ds', mapper, n. split_and!; [by read_trace|by read_trace|done| |].
  - intros ->. split; [by read_trace|]. intros d.
    rewrite <- Hloc. by eapply to_zarr_w.
  - intros Hn. destruct n as [|n]; [done|]. split; [by read_trace|].
    rewrite <- Hrows, <- Hloc. by eapply to_zarr_a.
Qed.

(** C6.  Two calls in a row with the same batch and the same target, both
    returning and both finding keys under the target, each append: the
    store ends up holding, along the append dimension, what it held at
    first, then the dataset [ds1] that the first call combined from the
    batch, then the dataset [ds2] that the second call combined from the
    batch.  The second call adds its records again; it is not a no-op. *)
Theorem combine_and_write_twice_appends_twice
    sources target append_dim concat_dim (w0 w1 w2 : World) tr1 tr2
    (result1 result2 : string) :
  run (combine_and_write sources target append_dim concat_dim) w0
    = (w1, tr1, inr result1) ->
  run (combine_and_write sources target append_dim concat_dim) w1
    = (w2, tr2, inr result2) ->
  Forall (fun found => found.2 <> 0) (omap obs_len (tr1 ++ tr2)) ->
  exists ds1 ds2,
    omap obs_rechunked tr1 = [ds1]
    /\ omap obs_rechunked tr2 = [ds2]
    /\ rows w1 target append_dim = rows w0 target append_dim ++ data ds1 append_dim
    /\ rows w2 target append_dim = rows w1 target append_dim ++ data ds2 append_dim
    /\ rows w2 target append_dim
         = rows w0 target append_dim ++ data ds1 append_dim ++ data ds2 append_dim
    /\ (data ds2 append_dim <> [] ->
          rows w2 target append_dim <> rows w1 target append_dim).
Proof.
  intros Hrun1 Hrun2 Hkeys.
  apply run_combine_and_write_returns in Hrun1
    as (wa1 & ofs1 & fs1 & wa2 & dsa & wa3 & ds1 & wa4 & mapper1 & wa5 & n1
        & Hopen1 & Hc1 & Hk1 & Hm1 & Hl1 & Hw1 & ->).
  apply run_combine_and_write_returns in Hrun2
    as (wb1 & ofs2 & fs2 & wb2 & dsb & wb3 & ds2 & wb4 & mapper2 & wb5 & n2
        & Hopen2 & Hc2 & Hk2 & Hm2 & Hl2 & Hw2 & ->).
  rewrite omap_app in Hkeys. apply Forall_app in Hkeys as [Hkeys1 Hkeys2].
  assert (n1 <> 0) as Hn1.
  { revert Hkeys1. read_trace. by intros [? _]%Forall_cons_1. }
  assert (n2 <> 0) as Hn2.
  { revert Hkeys2. read_trace. by intros [? _]%Forall_cons_1. }
  destruct n1 as [|n1]; [done|]. destruct n2 as [|n2]; [done|].
  pose proof (get_mapper_locator _ _ _ _ Hm1) as Hloc1.
  pose proof (get_mapper_locator _ _ _ _ Hm2) as Hloc2.
  pose proof (rows_before_write _ _ _ _ _ _ _ _ _ _ _ _ _ _ _ _
                Hopen1 Hc1 Hk1 Hm1 Hl1) as Hrows1.
  pose proof (rows_before_write _ _ _ _ _ _ _ _ _ _ _ _ _ _ _ _
                Hopen2 Hc2 Hk2 Hm2 Hl2) as Hrows2.
  assert (rows w1 target append_dim
            = rows w0 target append_dim ++ data ds1 append_dim) as E1.
  { rewrite <- Hrows1, <- Hloc1. by eapply to_zarr_a. }
  assert (rows w2 target append_dim
            = rows w1 target append_dim ++ data ds2 append_dim) as E2.
  { rewrite <- Hrows2, <- Hloc2. by eapply to_zarr_a. }
  exists ds1, ds2. split_and!; [by read_trace|by read_trace|done|done| |].
  - by rewrite E2, E1, <- app_assoc.
  - intros Hdata Heq. rewrite E2 in Heq.
    apply (f_equal length) in Heq. rewrite length_app in Heq.
    destruct (data ds2 append_dim); [done|]. simpl in Heq. lia.
Qed.

End Contract.
End XarrayFacts.

(** ** The reference library: its contract, and runs on concrete worlds *)

Module RefLibFacts.
Import Xarray RefLib XarrayFacts.

Lemma ref_reads_keep_world (X : Type) (e : LibE X) (w : RefWorld) :
  is_read e = true -> (lib_call e w).1 = w.
Proof. by destruct e. Qed.

Lemma ref_reads_keep_rows (X : Type) (e : LibE X) (w : RefWorld) :
  is_read e = true -> store_rows (lib_call e w).1 = store_rows w.
Proof. intros He. by rewrite ref_reads_keep_world. Qed.

Lemma ref_get_mapper_locator url (w0 w1 : RefWorld) (mapper : string) :
  lib_call (fsspec_get_mapper url) w0 = (w1, inr mapper) -> id mapper = url.
Proof. simpl. by intros [= _ ->]. Qed.

Lemma store_rows_put w url st d :
  store_rows (put_store w url st) url d =
    match z_array st with
    | Some (dim, chunks) => if bool_decide (dim = d) then concat chunks else []
    | None => []
    end.
Proof. unfold store_rows, put_store. simpl. by rewrite decide_True. Qed.

Lemma ref_to_zarr_w ds (mapper : string) (w0 w1 : RefWorld) :
  lib_call (Dataset_to_zarr ds mapper [("mode", "w")]) w0 = (w1, inr ()) ->
  forall d, store_rows w1 (id mapper) d = ds_rows ds d.
Proof.
  simpl. unfold ref_to_zarr. simpl. intros [= <-] d.
  by rewrite store_rows_put.
Qed.

Lemma ref_to_zarr_a ds (mapper : string) d (w0 w1 : RefWorld) :
  lib_call (Dataset_to_zarr ds mapper [("mode", "a"); ("append_dim", d)]) w0
    = (w1, inr ()) ->
  store_rows w1 (id mapper) d = store_rows w0 (id mapper) d ++ ds_rows ds d.
Proof.
  simpl. unfold ref_to_zarr. simpl.
  unfold ds_rows. case_bool_decide as Hds; simpl; [|done].
  unfold store_rows at 2. simpl.
  destruct (stores w0 mapper) as [[foreign [[dim chunks]|]]|]; simpl.
  - case_bool_decide as Hdim; [|done]. intros [= <-].
    rewrite store_rows_put. simpl. rewrite bool_decide_true by done.
    apply concat_app.
  - intros [= <-]. rewrite store_rows_put. simpl. by rewrite bool_decide_true.
  - intros [= <-]. rewrite store_rows_put. simpl. by rewrite bool_decide_true.
Qed.

(** On the reference library, re-chunking dimension [d] with size [k]
    gives one block only when the dataset has at most [k] records. *)
Lemma ref_chunk_one_block ds d k ds' :
  ref_chunk ds [(d, k)] = inr ds' ->
  length (ds_blocks ds') = 1 ->
  length (concat (ds_blocks ds)) <= k.
Proof.
  simpl. case_bool_decide as Hd; simpl; [|done].
  destruct k as [|k]; simpl; [done|]. intros [= <-]. simpl.
  destruct (concat (ds_blocks ds)) as [|x l] eqn:Hl; [simpl; lia|].
  rewrite PartitionFacts.chunked_step by (done || lia).
  intros Hone. injection Hone as Hone. apply nil_length_inv in Hone.
  apply PartitionFacts.chunked_eq_nil in Hone; [|lia].
  apply (f_equal length) in Hone. rewrite length_drop in Hone.
  simpl in *. lia.
Qed.

(** *** The docstring's batch, run on the reference library *)

Lemma first_call_returns :
  first_call = (first_call.1.1, first_call.1.2, inr target_url).
Proof. reflexivity. Qed.

Lemma second_call_returns :
  second_call = (second_call.1.1, second_call.1.2, inr target_url).
Proof. reflexivity. Qed.

Lemma third_call_returns :
  third_call = (third_call.1.1, third_call.1.2, inr target_url).
Proof. reflexivity. Qed.

(** C2.  On the batch of the docstring (two sources of 18 time steps each,
    appended along ["time"]) the task asks for chunks of [len(sources) = 2]
    records along ["time"]: the re-chunked dataset has 18 blocks of 2
    records and not one block of 36, and so has the store written from
    it. *)
Theorem combine_and_write_rechunk_docstring :
  first_call.2 = inr target_url
  /\ map snd (omap obs_rechunk first_call.1.2) = [[("time", 2)]]
  /\ map block_sizes (omap obs_rechunked first_call.1.2) = [replicate 18 2]
  /\ map block_sizes (omap obs_rechunked first_call.1.2) <> [[36]]
  /\ chunk_sizes first_call.1.1 target_url = Some (replicate 18 2).
Proof. vm_compute. by split_and!. Qed.

Lemma combine_and_write_returns_target_witness :
  first_call.2 = inr target_url /\ target_url = target_url.
Proof.
  split; [reflexivity|].
  exact (combine_and_write_returns_target _ _ _ _ _ _ _ _ first_call_returns).
Defined.

Lemma foreign_key_call_returns :
  foreign_key_call = (foreign_key_call.1.1, foreign_key_call.1.2, inr target_url).
Proof. reflexivity. Qed.

Lemma combine_and_write_mode_by_key_count_witness :
  chunk_sizes foreign_key_world target_url = None
  /\ omap obs_len foreign_key_call.1.2 = [(target_url, 1)]
  /\ map snd (omap obs_write foreign_key_call.1.2)
       = [[("mode", "a"); ("append_dim", "time")]]
  /\ ((omap obs_len foreign_key_call.1.2 = []
       /\ omap obs_write foreign_key_call.1.2 = [])
      \/ (exists ds mapper n kwargs tr0 res,
            omap obs_len foreign_key_call.1.2 = [(mapper, n)]
            /\ omap obs_write foreign_key_call.1.2 = [(ds, mapper, kwargs)]
            /\ foreign_key_call.1.2
                 = tr0 ++ [mkObs (Mapper_len mapper) (inr n);
                           mkObs (Dataset_to_zarr ds mapper kwargs) res]
            /\ (n = 0 -> kwargs = [("mode", "w")])
            /\ (1 <= n -> kwargs = [("mode", "a"); ("append_dim", "time")]))).
Proof.
  split; [reflexivity|]. split; [reflexivity|]. split; [reflexivity|].
  exact (combine_and_write_mode_by_key_count _ _ _ _ _ _ _ _
           foreign_key_call_returns).
Defined.

Lemma combine_and_write_combines_in_order_witness :
  omap obs_combine first_call.1.2
    = [([{| nc_dim := "time"; nc_rows := seq 0 18 |};
         {| nc_dim := "time"; nc_rows := seq 18 18 |}], "nested", "time")]
  /\ ((omap obs_combine first_call.1.2 = [] /\ exists exn, first_call.2 = inl exn)
      \/ (exists ofs fs res rest,
            length ofs = length docstring_sources
            /\ length fs = length docstring_sources
            /\ first_call.1.2
                 = open_trace docstring_sources ofs fs
                     ++ mkObs (xr_open_mfdataset fs "nested" "time") res :: rest
            /\ omap obs_combine first_call.1.2 = [(fs, "nested", "time")])).
Proof.
  split; [reflexivity|].
  exact (combine_and_write_combines_in_order _ _ _ _ _ _ _ _ first_call_returns).
Defined.

Lemma missing_source_call_raises :
  missing_source_call
    = (missing_source_call.1.1, missing_source_call.1.2,
       inl (FileNotFoundError "memory://cache/9.nc")).
Proof. reflexivity. Qed.

Lemma combine_and_write_only_write_mutates_witness :
  omap obs_write missing_source_call.1.2 = []
  /\ stores missing_source_call.1.1 = stores first_call.1.1
  /\ chunk_sizes missing_source_call.1.1 target_url = Some (replicate 18 2).
Proof.
  pose proof (combine_and_write_only_write_mutates stores _ _ _ _ _ _ _ _
                (fun X e w0 He => f_equal stores (ref_reads_keep_world X e w0 He))
                missing_source_call_raises) as [Hkept _].
  split; [reflexivity|]. split; [exact (Hkept eq_refl)|reflexivity].
Defined.

Lemma combine_and_write_creates_or_appends_witness :
  (exists ds mapper n,
     omap obs_rechunked first_call.1.2 = [ds]
     /\ omap obs_len first_call.1.2 = [(mapper, n)]
     /\ id mapper = target_url
     /\ (n = 0 ->
           omap obs_write first_call.1.2 = [(ds, mapper, [("mode", "w")])]
           /\ forall d, store_rows first_call.1.1 target_url d = ds_rows ds d)
     /\ (n <> 0 ->
           omap obs_write first_call.1.2
             = [(ds, mapper, [("mode", "a"); ("append_dim", "time")])]
           /\ store_rows first_call.1.1 target_url "time"
                = store_rows docstring_world target_url "time" ++ ds_rows ds "time"))
  /\ store_rows first_call.1.1 target_url "time" = seq 0 36
  /\ store_rows second_call.1.1 target_url "time" = seq 0 36 ++ seq 0 36.
Proof.
  split; [|split; reflexivity].
  exact (combine_and_write_creates_or_appends store_rows ds_rows id
           ref_reads_keep_rows ref_get_mapper_locator ref_to_zarr_w ref_to_zarr_a
           _ _ _ _ _ _ _ _ first_call_returns).
Defined.

Lemma combine_and_write_twice_appends_twice_witness :
  Forall (fun found => found.2 <> 0)
    (omap obs_len (second_call.1.2 ++ third_call.1.2))
  /\ store_rows first_call.1.1 target_url "time" = seq 0 36
  /\ store_rows third_call.1.1 target_url "time" = seq 0 36 ++ seq 0 36 ++ seq 0 36
  /\ exists ds1 ds2,
       omap obs_rechunked second_call.1.2 = [ds1]
       /\ omap obs_rechunked third_call.1.2 = [ds2]
       /\ store_rows second_call.1.1 target_url "time"
            = store_rows first_call.1.1 target_url "time" ++ ds_rows ds1 "time"
       /\ store_rows third_call.1.1 target_url "time"
            = store_rows second_call.1.1 target_url "time" ++ ds_rows ds2 "time"
       /\ store_rows third_call.1.1 target_url "time"
            = store_rows first_call.1.1 target_url "time"
                ++ ds_rows ds1 "time" ++ ds_rows ds2 "time"
       /\ (ds_rows ds2 "time" <> [] ->
             store_rows third_call.1.1 target_url "time"
               <> store_rows second_call.1.1 target_url "time").
Proof.
  assert (Forall (fun found : string * nat => found.2 <> 0)
            (omap obs_len (second_call.1.2 ++ third_call.1.2))) as Hkeys.
  { vm_compute. repeat constructor; discriminate. }
  split; [exact Hkeys|]. split; [reflexivity|]. split; [reflexivity|].
  exact (combine_and_write_twice_appends_twice store_rows ds_rows id
           ref_reads_keep_rows ref_get_mapper_locator ref_to_zarr_a
           _ _ _ _ _ _ _ _ _ _ _ second_call_returns third_call_returns Hkeys).
Defined.

(** *** A failed append *)

(** C7.  In every run of [combine_and_write], against any library: if the
    outcome is an exception, it is the exception raised by the last library
    call made, no earlier call raised, and the world left behind is the one
    that call left (no call is repeated, none is made afterwards to undo
    anything); if the outcome is a value, no call raised.  And there is a
    failed append, on the reference library: a first batch is written, the
    append of a second batch raises, and the store still holds the first
    batch and nothing of the second. *)
Theorem combine_and_write_fails_fast :
  (forall (Hh : Handles) (L : Library) sources target append_dim concat_dim
       (w w' : World) tr r,
     run (combine_and_write sources target append_dim concat_dim) w = (w', tr, r) ->
     match r with
     | inl exn =>
         exists tr0 (X : Type) (e : LibE X) w0,
           tr = tr0 ++ [mkObs e (inl exn)]
           /\ lib_call e w0 = (w', inl exn)
           /\ Forall (fun o => obs_raised o = None) tr0
     | inr _ => Forall (fun o => obs_raised o = None) tr
     end)
  /\ (time_call.2 = inr target_url
      /\ store_rows time_call.1.1 target_url "time" = seq 0 36
      /\ lat_call.2 = inl (ValueError "append_dim does not match the store")
      /\ map snd (omap obs_write lat_call.1.2)
           = [[("mode", "a"); ("append_dim", "lat")]]
      /\ stores lat_call.1.1 target_url = stores time_call.1.1 target_url
      /\ store_rows lat_call.1.1 target_url "time" = seq 0 36
      /\ store_rows lat_call.1.1 target_url "lat" = []).
Proof.
  split.
  - intros Hh L sources target append_dim concat_dim w w' tr r.
    apply combine_and_write_raises_last.
  - vm_compute. by split_and!.
Qed.

Lemma lat_call_raises :
  lat_call
    = (lat_call.1.1, lat_call.1.2,
       inl (ValueError "append_dim does not match the store")).
Proof. reflexivity. Qed.

Lemma combine_and_write_fails_fast_witness :
  exists tr0 (X : Type) (e : LibE X) w0,
    lat_call.1.2
      = tr0 ++ [mkObs e (inl (ValueError "append_dim does not match the store"))]
    /\ lib_call e w0
         = (lat_call.1.1, inl (ValueError "append_dim does not match the store"))
    /\ Forall (fun o => obs_raised o = None) tr0.
Proof.
  exact (proj1 combine_and_write_fails_fast _ _ _ _ _ _ _ _ _ _ lat_call_raises).
Defined.

End RefLibFacts.

(** ** The provisioning declaration *)

Module CdkFacts.
Import Cdk.
Local Open Scope Z_scope.

(** The stack is declared whenever the environment names the secret. *)
Lemma BakeryStack_declared environ identifier arn :
  environ "RUNNER_TOKEN_SECRET_ARN" = Some arn ->
  exists st, BakeryStack environ identifier = inr st.
Proof. intros Harn. unfold BakeryStack. rewrite Harn. by eexists. Qed.

(** C10.  Whatever the identifier and the environment, the stack that
    [BakeryStack] declares has a service behind an internet-facing
    application load balancer, with a public IP and a desired count of one
    task; the health check of its target group is an HTTP check on path
    [/api/health] and port ["8080"]; and the service's task definition has
    one container, whose one port mapping declares container port 8080,
    the port of the health check. *)
Theorem BakeryStack_service environ identifier st :
  BakeryStack environ identifier = inr st ->
  let svc := prefect_ecs_agent_service st in
  internet_facing svc = true
  /\ assign_public_ip svc = true
  /\ desired_count svc = 1
  /\ (exists hc,
        health_check svc = Some hc
        /\ effective_protocol hc = "HTTP"
        /\ health_check_path hc = Some "/api/health"
        /\ health_check_port hc = Some "8080"
        /\ exists c pm,
             containers (task_definition svc) = [c]
             /\ port_mappings c = [pm]
             /\ container_port pm = 8080
             /\ health_check_port hc = Some (str (container_port pm))).
Proof.
  unfold BakeryStack.
  destruct (environ "RUNNER_TOKEN_SECRET_ARN") as [arn|]; [|done].
  intros [= <-]. simpl. split_and!; try done.
  eexists. split_and!; try done. by eexists _, _.
Qed.

Lemma BakeryStack_service_witness :
  exists st,
    BakeryStack dev_environ "dev" = inr st
    /\ service_id (prefect_ecs_agent_service st) = "prefect-ecs-agent-service-dev"
    /\ internet_facing (prefect_ecs_agent_service st) = true
    /\ assign_public_ip (prefect_ecs_agent_service st) = true
    /\ desired_count (prefect_ecs_agent_service st) = 1.
Proof.
  eexists. split; [reflexivity|]. split; [reflexivity|].
  pose proof (BakeryStack_service dev_environ "dev" _ eq_refl)
    as (Hlb & Hip & Hcount & _).
  exact (conj Hlb (conj Hip Hcount)).
Defined.

End CdkFacts.

(* ===================================================================== *)
(** * Part III: further properties of the code *)
(* ===================================================================== *)

(** ** The batch partitioner, tuple by tuple *)

Module PartitionMore.
Import Partition PartitionFacts.

Section Slices.
Context {A : Type}.
Implicit Types (l : list A) (n : nat).

(** The [i]-th tuple, when there is one, is the slice of [n] items that
    starts at item [i * n]. *)
Lemma chunked_lookup l n i :
  0 < n ->
  chunked_iterable l n !! i =
    if decide (i * n < length l) then Some (take n (drop (i * n) l)) else None.
Proof.
  intros Hn. revert l. induction i as [|i IH]; intros l.
  - destruct l as [|x l].
    + rewrite chunked_nil. by rewrite decide_False by (simpl; lia).
    + rewrite chunked_step by done. rewrite decide_True by (simpl; lia). done.
  - destruct l as [|x l].
    + rewrite chunked_nil. by rewrite decide_False by (simpl; lia).
    + rewrite chunked_step by done. cbn [lookup list_lookup].
      change (list_lookup i ?t) with (t !! i). rewrite IH.
      rewrite length_drop, drop_drop.
      replace (n + i * n) with (S i * n) by lia.
      destruct (decide (i * n < length (x :: l) - n)),
        (decide (S i * n < length (x :: l))); try done; lia.
Qed.

(** X1.  For a positive [n], tuple number [i] of [chunk S n] is the slice
    [S[i*n : (i+1)*n]]: it exists exactly when [i * n < len(S)], and it is
    made of the [n] items from position [i * n] on (fewer at the end of
    [S]).  ([chunked_iterable] as modelled from the spec.) *)
Theorem chunk_tuple_is_slice (S : list A) (n i : nat) :
  0 < n ->
  (i * n < length S -> chunk S n !! i = Some (take n (drop (i * n) S)))
  /\ (length S <= i * n -> chunk S n !! i = None).
Proof.
  intros Hn. unfold chunk. rewrite chunked_lookup by done. split; intros Hi.
  - by rewrite decide_True.
  - by rewrite decide_False by lia.
Qed.

(** X2.  For a positive [n], [chunk S n] has [ceil(len(S) / n)] tuples,
    none of them empty and none longer than [n].  ([chunked_iterable] as
    modelled from the spec.) *)
Theorem chunk_count_and_bounds (S : list A) (n : nat) :
  0 < n ->
  length (chunk S n) = (length S + n - 1) / n
  /\ Forall (fun c => 0 < length c <= n) (chunk S n).
Proof.
  intros Hn. unfold chunk. split.
  - set (m := length (chunked_iterable S n)).
    assert (forall i, i < m <-> i * n < length S) as Hlt.
    { intros i. unfold m. rewrite <- lookup_lt_is_Some, chunked_lookup by done.
      destruct (decide (i * n < length S)); split; intros Hx; done. }
    assert (length S <= m * n) as Hup.
    { destruct (decide (m * n < length S)) as [Hx|Hx]; [|lia].
      apply Hlt in Hx. lia. }
    destruct m as [|m'] eqn:Hm.
    + rewrite Nat.div_small; [done|lia].
    + assert (m' * n < length S) as Hlow by (apply Hlt; lia).
      apply (Nat.div_unique _ _ _ (length S + n - 1 - n * (m' + 1))); lia.
  - apply Forall_lookup. intros i c. rewrite chunked_lookup by done.
    destruct (decide (i * n < length S)) as [Hi|Hi]; [|done].
    intros [= <-]. rewrite length_take, length_drop. lia.
Qed.

End Slices.

Lemma chunk_tuple_is_slice_witness :
  0 < 2
  /\ chunk [1; 2; 3; 4; 5] 2 !! 2 = Some [5]
  /\ chunk [1; 2; 3; 4; 5] 2 !! 3 = None.
Proof.
  split; [lia|].
  pose proof (chunk_tuple_is_slice [1; 2; 3; 4; 5] 2 2 ltac:(lia)) as [Hin _].
  pose proof (chunk_tuple_is_slice [1; 2; 3; 4; 5] 2 3 ltac:(lia)) as [_ Hout].
  split; [apply Hin; simpl; lia|apply Hout; simpl; lia].
Defined.

Lemma chunk_count_and_bounds_witness :
  0 < 2
  /\ length (chunk [1; 2; 3; 4; 5] 2) = 3
  /\ Forall (fun c => 0 < length c <= 2) (chunk [1; 2; 3; 4; 5] 2).
Proof.
  split; [lia|].
  exact (chunk_count_and_bounds [1; 2; 3; 4; 5] 2 ltac:(lia)).
Defined.

End PartitionMore.

(** ** The task, call by call *)

Module XarrayMore.
Import Xarray XarrayFacts.

Section Calls.
Context `{Library}.
Implicit Types (sources : list string) (target append_dim concat_dim : string).
Implicit Types (w : World) (tr : list Obs).

Lemma open_call_not_combined o :
  is_open_call (obs_call o) = true -> obs_combined o = None.
Proof. by destruct o as [X [] r]. Qed.

Lemma open_call_not_mapper_url o :
  is_open_call (obs_call o) = true -> obs_mapper_url o = None.
Proof. by destruct o as [X [] r]. Qed.

Lemma open_trace_length sources ofs fs :
  length ofs = length sources -> length fs = length sources ->
  length (open_trace sources ofs fs) = 2 * length sources.
Proof.
  revert ofs fs. induction sources as [|url sources IH];
    intros [|f ofs] [|file fs]; simpl; try done.
  intros [= Hofs] [= Hfs]. rewrite IH by done. lia.
Qed.

(** The list comprehension stops at the first source that does not open:
    the sources before it were opened, those after it are not touched. *)
Lemma run_open_raises sources w w1 tr exn :
  run (list_comp double_open sources) w = (w1, tr, inl exn) ->
  exists k url ofs fs,
    sources !! k = Some url /\ length ofs = k /\ length fs = k
    /\ (tr = open_trace (take k sources) ofs fs
               ++ [mkObs (fsspec_open url) (inl exn)]
        \/ exists f,
             tr = open_trace (take k sources) ofs fs
                    ++ [mkObs (fsspec_open url) (inr f);
                        mkObs (OpenFile_open f) (inl exn)]).
Proof.
  revert w w1 tr. induction sources as [|url sources IH]; intros w w1 tr; [done|].
  cbn [list_comp]. rewrite run_mbind. unfold double_open at 1. simpl.
  destruct (lib_call (fsspec_open url) w) as [wa [exn1|f]].
  { intros [= <- <- <-]. exists 0, url, [], []. split_and!; try done. by left. }
  destruct (lib_call (OpenFile_open f) wa) as [wb [exn1|file]].
  { intros [= <- <- <-]. exists 0, url, [], []. split_and!; try done.
    right. by exists f. }
  rewrite run_mbind.
  destruct (run (list_comp double_open sources) wb) as [[wc trc] [exn1|files]] eqn:E;
    simpl; [|done].
  intros [= <- <- <-].
  destruct (IH _ _ _ E) as (k & url' & ofs & fs & Hk & Hofs & Hfs & Htr).
  exists (S k), url', (f :: ofs), (file :: fs). split_and!; simpl; try done; try lia.
  destruct Htr as [->|(f' & ->)]; [by left|]. right. by exists f'.
Qed.

End Calls.

#[global] Hint Resolve open_call_not_combined open_call_not_mapper_url : trace.

Section Task.
Context `{Library}.
Implicit Types (sources : list string) (target append_dim concat_dim : string).
Implicit Types (w : World) (tr : list Obs).

(** X3.  When a run of [combine_and_write] ends without having called
    [xr.open_mfdataset], it ended while opening source number [k] of the
    list: the [k] sources before it were opened, one [fsspec.open] and one
    [.open()] each and in order, then [fsspec.open] or [.open()] raised on
    source [k], and no source after it was touched. *)
Theorem combine_and_write_stops_at_first_unopened
    sources target append_dim concat_dim w w' tr r :
  run (combine_and_write sources target append_dim concat_dim) w = (w', tr, r) ->
  omap obs_combine tr = [] ->
  exists exn k url ofs fs,
    r = inl exn
    /\ sources !! k = Some url /\ length ofs = k /\ length fs = k
    /\ (tr = open_trace (take k sources) ofs fs
               ++ [mkObs (fsspec_open url) (inl exn)]
        \/ exists f,
             tr = open_trace (take k sources) ofs fs
                    ++ [mkObs (fsspec_open url) (inr f);
                        mkObs (OpenFile_open f) (inl exn)]).
Proof.
  intros Hrun. apply run_combine_and_write in Hrun
    as [(exn & -> & Hopen)|(w1 & ofs & fs & tr2 & _ & _ & _ & Hafter & ->)].
  - intros _. apply run_open_raises in Hopen
      as (k & url & ofs & fs & Hk & Hofs & Hfs & Htr).
    by exists exn, k, url, ofs, fs.
  - after_open_cases Hafter; by read_trace.
Qed.

(** X4.  A run makes at most [2 * len(sources) + 5] library calls, and a
    run that returns makes exactly that many: two per source, then one each
    of [open_mfdataset], [chunk], [get_mapper], [len] and [to_zarr].  No
    call is made twice. *)
Theorem combine_and_write_call_count
    sources target append_dim concat_dim w w' tr r :
  run (combine_and_write sources target append_dim concat_dim) w = (w', tr, r) ->
  length tr <= 2 * length sources + 5
  /\ (forall result, r = inr result -> length tr = 2 * length sources + 5).
Proof.
  intros Hrun. apply run_combine_and_write in Hrun
    as [(exn & -> & Hopen)|(w1 & ofs & fs & tr2 & _ & Hofs & Hfs & Hafter & ->)].
  - split; [|done].
    apply run_open_raises in Hopen as (k & url & ofs & fs & Hk & Hofs & Hfs & Htr).
    apply lookup_lt_Some in Hk.
    assert (length (open_trace (take k sources) ofs fs) = 2 * k) as Hlen.
    { rewrite open_trace_length; rewrite ?length_take; lia. }
    destruct Htr as [->|(f & ->)]; rewrite length_app, Hlen; simpl; lia.
  - rewrite length_app, open_trace_length by done.
    after_open_cases Hafter; simpl; (split; [lia|]); done.
Qed.

(** X5.  In a run that reaches the write, the values flow from call to
    call unchanged: the dataset that is re-chunked is the one
    [xr.open_mfdataset] returned, the dataset that is written is the one
    [Dataset.chunk] returned, and the mapper that is counted and written to
    is the one [fsspec.get_mapper] returned for [target]. *)
Theorem combine_and_write_data_flow
    sources target append_dim concat_dim w w' tr r written store kw :
  run (combine_and_write sources target append_dim concat_dim) w = (w', tr, r) ->
  omap obs_write tr = [(written, store, kw)] ->
  exists combined n,
    omap obs_combined tr = [combined]
    /\ omap obs_rechunk tr = [(combined, [(append_dim, length sources)])]
    /\ omap obs_rechunked tr = [written]
    /\ omap obs_mapper_url tr = [target]
    /\ omap obs_mapper tr = [store]
    /\ omap obs_len tr = [(store, n)]
    /\ kw = write_kwargs n append_dim.
Proof.
  intros Hrun. apply run_combine_and_write in Hrun
    as [(exn & -> & Hopen)|(w1 & ofs & fs & tr2 & _ & _ & _ & Hafter & ->)].
  { apply run_open_calls in Hopen.
    rewrite (omap_open_calls obs_write) by eauto with trace. done. }
  after_open_cases Hafter; read_trace; try done.
  intros [= <- <- <-]. exists ds, n. split_and!; by read_trace.
Qed.

(** X6.  An empty batch is not rejected by the task: no file is opened,
    the first library call is [xr.open_mfdataset([], combine="nested",
    concat_dim=concat_dim)], and if that returns a dataset the task asks
    for chunks of [0] records along the append dimension. *)
Theorem combine_and_write_empty_batch target append_dim concat_dim w w' tr r :
  run (combine_and_write [] target append_dim concat_dim) w = (w', tr, r) ->
  exists res rest,
    tr = mkObs (xr_open_mfdataset [] "nested" concat_dim) res :: rest
    /\ match res with
       | inl exn => rest = [] /\ r = inl exn
       | inr ds => exists res' rest',
           rest = mkObs (Dataset_chunk ds [(append_dim, 0)]) res' :: rest'
       end.
Proof.
  intros Hrun. apply run_combine_and_write in Hrun
    as [(exn & -> & Hopen)|(w1 & ofs & fs & tr2 & _ & Hofs & Hfs & Hafter & ->)];
    [done|].
  destruct ofs; [|done]. destruct fs; [|done]. simpl.
  after_open_cases Hafter; eexists _, _; (split; [done|]); simpl; eauto.
Qed.

End Task.

(** *** Two batches in a row, and the other stores *)

Section Composition.
Context `{Library}.
Context {Row : Type}.
Variable rows : World -> string -> string -> list Row.
Variable data : Dataset -> string -> list Row.
Variable locator : Mapper -> string.

(** The same part of the libraries' contract as for the single call. *)
Hypothesis reads_keep_rows : forall (X : Type) (e : LibE X) w0,
  is_read e = true -> rows (lib_call e w0).1 = rows w0.
Hypothesis get_mapper_locator : forall url w0 w1 mapper,
  lib_call (fsspec_get_mapper url) w0 = (w1, inr mapper) -> locator mapper = url.
Hypothesis to_zarr_w : forall ds mapper w0 w1,
  lib_call (Dataset_to_zarr ds mapper [("mode", "w")]) w0 = (w1, inr ()) ->
  forall d, rows w1 (locator mapper) d = data ds d.
Hypothesis to_zarr_a : forall ds mapper d w0 w1,
  lib_call (Dataset_to_zarr ds mapper [("mode", "a"); ("append_dim", d)]) w0
    = (w1, inr ()) ->
  rows w1 (locator mapper) d = rows w0 (locator mapper) d ++ data ds d.

(** X7.  Two batches written one after the other to the same target along
    the same append dimension, the first call finding no key under the
    target and the second finding some: the store ends up holding, along
    the append dimension, the records of the first batch followed by those
    of the second, whatever it held before. *)
Theorem combine_and_write_create_then_append
    sources1 sources2 target append_dim concat_dim1 concat_dim2
    (w0 w1 w2 : World) tr1 tr2 (result1 result2 : string) :
  run (combine_and_write sources1 target append_dim concat_dim1) w0
    = (w1, tr1, inr result1) ->
  run (combine_and_write sources2 target append_dim concat_dim2) w1
    = (w2, tr2, inr result2) ->
  map snd (omap obs_len tr1) = [0] ->
  Forall (fun found => found.2 <> 0) (omap obs_len tr2) ->
  exists ds1 ds2,
    omap obs_rechunked tr1 = [ds1]
    /\ omap obs_rechunked tr2 = [ds2]
    /\ rows w1 target append_dim = data ds1 append_dim
    /\ rows w2 target append_dim = data ds1 append_dim ++ data ds2 append_dim.
Proof.
  intros Hrun1 Hrun2 Hkeys1 Hkeys2.
  apply run_combine_and_write_returns in Hrun1
    as (wa1 & ofs1 & fs1 & wa2 & dsa & wa3 & ds1 & wa4 & mapper1 & wa5 & n1
        & Hopen1 & Hc1 & Hk1 & Hm1 & Hl1 & Hw1 & ->).
  apply run_combine_and_write_returns in Hrun2
    as (wb1 & ofs2 & fs2 & wb2 & dsb & wb3 & ds2 & wb4 & mapper2 & wb5 & n2
        & Hopen2 & Hc2 & Hk2 & Hm2 & Hl2 & Hw2 & ->).
  revert Hkeys1 Hkeys2. read_trace. intros [= ->] [Hn2 _]%Forall_cons_1.
  simpl in Hn2. destruct n2 as [|n2]; [done|].
  pose proof (get_mapper_locator _ _ _ _ Hm1) as Hloc1.
  pose proof (get_mapper_locator _ _ _ _ Hm2) as Hloc2.
  pose proof (rows_before_write rows reads_keep_rows _ _ _ _ _ _ _ _ _ _ _ _ _ _ _ _
                Hopen2 Hc2 Hk2 Hm2 Hl2) as Hrows2.
  assert (rows w1 target append_dim = data ds1 append_dim) as E1.
  { rewrite <- Hloc1. by eapply to_zarr_w. }
  exists ds1, ds2. split_and!; [by read_trace|by read_trace|done|].
  rewrite <- E1, <- Hrows2, <- Hloc2. by eapply to_zarr_a.
Qed.

End Composition.

Section OtherStores.
Context `{Library}.
Context {V : Type}.

(** [held w url]: what world [w] holds under locator [url]. *)
Variable held : World -> string -> V.
Variable locator : Mapper -> string.

(** Reads change nothing, a mapper is for the locator it was asked for,
    and [to_zarr] changes nothing under a locator other than its
    mapper's, whether it returns or raises. *)
Hypothesis reads_keep_held : forall (X : Type) (e : LibE X) w0,
  is_read e = true -> held (lib_call e w0).1 = held w0.
Hypothesis get_mapper_locator : forall url w0 w1 mapper,
  lib_call (fsspec_get_mapper url) w0 = (w1, inr mapper) -> locator mapper = url.
Hypothesis to_zarr_elsewhere : forall ds mapper kwargs w0 url,
  url <> locator mapper ->
  held (lib_call (Dataset_to_zarr ds mapper kwargs) w0).1 url = held w0 url.

(** X8.  Whatever the outcome of a run, what the world holds under any
    locator other than [target] is what it held before: the only store
    the task writes to is the one at [target]. *)
Theorem combine_and_write_touches_target_only
    sources target append_dim concat_dim (w w' : World) tr r url :
  run (combine_and_write sources target append_dim concat_dim) w = (w', tr, r) ->
  url <> target ->
  held w' url = held w url.
Proof.
  intros Hrun Hurl.
  assert (forall (X : Type) (e : LibE X) w0 w1 res,
            lib_call e w0 = (w1, res) -> is_read e = true -> held w1 = held w0)
    as Hstep.
  { intros X e w0 wn res Hcall He. specialize (reads_keep_held X e w0 He).
    by rewrite Hcall in reads_keep_held. }
  apply run_combine_and_write in Hrun
    as [(exn & -> & Hopen)|(w1 & ofs & fs & tr2 & Hopen & _ & _ & Hafter & ->)].
  { assert (held w' = held w) as E; [|by rewrite E].
    eapply (run_reads_only held); [done|done|].
    eapply Forall_impl; [by eapply run_open_calls|]. apply open_call_is_read. }
  assert (held w1 = held w) as Hw1.
  { eapply (run_reads_only held); [done|done|].
    eapply Forall_impl; [apply open_trace_calls|]. apply open_call_is_read. }
  rewrite <- Hw1.
  after_open_cases Hafter.
  - by rewrite (Hstep _ _ _ _ _ Hcombine eq_refl).
  - by rewrite (Hstep _ _ _ _ _ Hchunk eq_refl), (Hstep _ _ _ _ _ Hcombine eq_refl).
  - by rewrite (Hstep _ _ _ _ _ Hmapper eq_refl), (Hstep _ _ _ _ _ Hchunk eq_refl),
      (Hstep _ _ _ _ _ Hcombine eq_refl).
  - by rewrite (Hstep _ _ _ _ _ Hlen eq_refl), (Hstep _ _ _ _ _ Hmapper eq_refl),
      (Hstep _ _ _ _ _ Hchunk eq_refl), (Hstep _ _ _ _ _ Hcombine eq_refl).
  - pose proof (get_mapper_locator _ _ _ _ Hmapper) as Hloc.
    pose proof (to_zarr_elsewhere ds' mapper (write_kwargs n append_dim) w5 url)
      as Hwr.
    rewrite Hwrite in Hwr. simpl in Hwr. rewrite Hwr by by rewrite Hloc.
    by rewrite (Hstep _ _ _ _ _ Hlen eq_refl), (Hstep _ _ _ _ _ Hmapper eq_refl),
      (Hstep _ _ _ _ _ Hchunk eq_refl), (Hstep _ _ _ _ _ Hcombine eq_refl).
Qed.

End OtherStores.
End XarrayMore.

(** ** These properties on the reference library *)

Module RefLibMore.
Import Xarray RefLib XarrayFacts RefLibFacts XarrayMore.

Lemma ref_to_zarr_elsewhere ds (mapper : string) kwargs (w0 : RefWorld) url :
  url <> id mapper ->
  stores (lib_call (Dataset_to_zarr ds mapper kwargs) w0).1 url = stores w0 url.
Proof.
  intros Hurl. simpl. unfold ref_to_zarr.
  assert (forall st, stores (put_store w0 mapper st) url = stores w0 url) as Hput.
  { intros st. unfold put_store. simpl. by rewrite decide_False. }
  repeat (case_match; simpl; try done).
Qed.

Lemma ref_reads_keep_stores (X : Type) (e : LibE X) (w : RefWorld) :
  is_read e = true -> stores (lib_call e w).1 = stores w.
Proof. intros He. by rewrite ref_reads_keep_world. Qed.

Lemma combine_and_write_stops_at_first_unopened_witness :
  omap obs_combine missing_source_call.1.2 = []
  /\ exists exn k url ofs fs,
       @inl RefExn string (FileNotFoundError "memory://cache/9.nc") = inl exn
       /\ ["memory://cache/0.nc"; "memory://cache/9.nc"] !! k = Some url
       /\ length ofs = k /\ length fs = k
       /\ (missing_source_call.1.2
             = open_trace (take k ["memory://cache/0.nc"; "memory://cache/9.nc"])
                 ofs fs
                 ++ [mkObs (fsspec_open url) (inl exn)]
           \/ exists f,
                missing_source_call.1.2
                  = open_trace
                      (take k ["memory://cache/0.nc"; "memory://cache/9.nc"]) ofs fs
                      ++ [mkObs (fsspec_open url) (inr f);
                          mkObs (OpenFile_open f) (inl exn)]).
Proof.
  split; [reflexivity|].
  exact (combine_and_write_stops_at_first_unopened _ _ _ _ _ _ _ _
           missing_source_call_raises eq_refl).
Defined.

Lemma combine_and_write_call_count_witness :
  length first_call.1.2 = 9
  /\ length missing_source_call.1.2 = 4
  /\ length first_call.1.2 <= 2 * length docstring_sources + 5
  /\ (forall result,
        @inr RefExn string target_url = inr result ->
        length first_call.1.2 = 2 * length docstring_sources + 5).
Proof.
  split; [reflexivity|]. split; [reflexivity|].
  exact (combine_and_write_call_count _ _ _ _ _ _ _ _ first_call_returns).
Defined.

Lemma combine_and_write_data_flow_witness :
  exists written store kw,
    omap obs_write first_call.1.2 = [(written, store, kw)]
    /\ store = target_url
    /\ exists combined n,
         omap obs_combined first_call.1.2 = [combined]
         /\ omap obs_rechunk first_call.1.2 = [(combined, [("time", 2)])]
         /\ omap obs_rechunked first_call.1.2 = [written]
         /\ omap obs_mapper_url first_call.1.2 = [target_url]
         /\ omap obs_mapper first_call.1.2 = [store]
         /\ omap obs_len first_call.1.2 = [(store, n)]
         /\ kw = write_kwargs n "time".
Proof.
  eexists _, _, _. split; [reflexivity|]. split; [reflexivity|].
  exact (combine_and_write_data_flow _ _ _ _ _ _ _ _ _ _ _
           first_call_returns eq_refl).
Defined.

Lemma empty_batch_call_outcome :
  empty_batch_call
    = (empty_batch_call.1.1, empty_batch_call.1.2, empty_batch_call.2).
Proof. reflexivity. Qed.

Lemma combine_and_write_empty_batch_witness :
  empty_batch_call.2 = inl (OSError "no files to open")
  /\ stores empty_batch_call.1.1 target_url = None
  /\ exists res rest,
       empty_batch_call.1.2 = mkObs (xr_open_mfdataset [] "nested" "time") res :: rest
       /\ match res with
          | inl exn => rest = [] /\ empty_batch_call.2 = inl exn
          | inr ds => exists res' rest',
              rest = mkObs (Dataset_chunk ds [("time", 0)]) res' :: rest'
          end.
Proof.
  split; [reflexivity|]. split; [reflexivity|].
  exact (combine_and_write_empty_batch target_url "time" "time" docstring_world
           _ _ _ empty_batch_call_outcome).
Defined.

Lemma combine_and_write_create_then_append_witness :
  map snd (omap obs_len first_call.1.2) = [0]
  /\ Forall (fun found => found.2 <> 0) (omap obs_len second_call.1.2)
  /\ store_rows second_call.1.1 target_url "time" = seq 0 36 ++ seq 0 36
  /\ exists ds1 ds2,
       omap obs_rechunked first_call.1.2 = [ds1]
       /\ omap obs_rechunked second_call.1.2 = [ds2]
       /\ store_rows first_call.1.1 target_url "time" = ds_rows ds1 "time"
       /\ store_rows second_call.1.1 target_url "time"
            = ds_rows ds1 "time" ++ ds_rows ds2 "time".
Proof.
  assert (Forall (fun found : string * nat => found.2 <> 0)
            (omap obs_len second_call.1.2)) as Hkeys.
  { vm_compute. repeat constructor; discriminate. }
  split; [reflexivity|]. split; [exact Hkeys|]. split; [reflexivity|].
  exact (combine_and_write_create_then_append store_rows ds_rows id
           ref_reads_keep_rows ref_get_mapper_locator ref_to_zarr_w ref_to_zarr_a
           _ _ _ _ _ _ _ _ _ _ _ _ _
           first_call_returns second_call_returns eq_refl Hkeys).
Defined.

Lemma two_store_call_returns :
  two_store_call = (two_store_call.1.1, two_store_call.1.2, inr target_url).
Proof. reflexivity. Qed.

Lemma combine_and_write_touches_target_only_witness :
  other_url <> target_url
  /\ chunk_sizes two_store_call.1.1 target_url = Some (replicate 18 2)
  /\ chunk_sizes two_store_call.1.1 other_url = Some [3]
  /\ stores two_store_call.1.1 other_url = stores two_store_world other_url.
Proof.
  assert (other_url <> target_url) as Hurl by discriminate.
  split; [exact Hurl|]. split; [reflexivity|]. split; [reflexivity|].
  exact (combine_and_write_touches_target_only stores id
           ref_reads_keep_stores ref_get_mapper_locator ref_to_zarr_elsewhere
           _ _ _ _ _ _ _ _ _ two_store_call_returns Hurl).
Defined.

End RefLibMore.

(** ** The provisioning declaration, beyond the service *)

Module CdkMore.
Import Cdk.
Local Open Scope Z_scope.




(** X11.  The stack reads one thing from the environment: the value of
    [RUNNER_TOKEN_SECRET_ARN] is the ARN of the one secret that the one
    container receives, as field [RUNNER_TOKEN] under the name
    [PREFECT__CLOUD__AGENT__AUTH_TOKEN]; an environment with the same value
    for that variable declares the same stack. *)
Theorem BakeryStack_secret_from_environment environ identifier st :
  BakeryStack environ identifier = inr st ->
  (exists c s,
     containers (prefect_ecs_agent_task_definition st) = [c]
     /\ secrets c = [("PREFECT__CLOUD__AGENT__AUTH_TOKEN", s)]
     /\ environ "RUNNER_TOKEN_SECRET_ARN" = Some (secret_arn s)
     /\ field s = "RUNNER_TOKEN")
  /\ (forall environ',
        environ' "RUNNER_TOKEN_SECRET_ARN" = environ "RUNNER_TOKEN_SECRET_ARN" ->
        BakeryStack environ' identifier = inr st).
Proof.
  unfold BakeryStack.
  destruct (environ "RUNNER_TOKEN_SECRET_ARN") as [arn|]; [|done].
  intros [= <-]. split.
  - by eexists _, _.
  - by intros environ' ->.
Qed.

(** X12.  The network and the wiring: the VPC has no NAT gateway and all
    its subnet configurations are public; the cluster is in that VPC; the
    service runs in that cluster the stack's task definition, container
    included, and its tasks are assigned a public IP. *)
Theorem BakeryStack_public_network environ identifier st :
  BakeryStack environ identifier = inr st ->
  let svc := prefect_ecs_agent_service st in
  nat_gateways (vpc st) = 0
  /\ subnet_configuration (vpc st) <> []
  /\ Forall (fun sc => subnet_type sc = PUBLIC) (subnet_configuration (vpc st))
  /\ cluster_vpc (stack_cluster st) = vpc st
  /\ cluster svc = stack_cluster st
  /\ task_definition svc = prefect_ecs_agent_task_definition st
  /\ length (containers (task_definition svc)) = 1%nat
  /\ assign_public_ip svc = true.
Proof.
  unfold BakeryStack.
  destruct (environ "RUNNER_TOKEN_SECRET_ARN") as [arn|]; [|done].
  intros [= <-]. simpl. split_and!; try done. by repeat constructor.
Qed.


Lemma BakeryStack_secret_from_environment_witness :
  exists st,
    BakeryStack dev_environ "dev" = inr st
    /\ exists c s,
         containers (prefect_ecs_agent_task_definition st) = [c]
         /\ secrets c = [("PREFECT__CLOUD__AGENT__AUTH_TOKEN", s)]
         /\ dev_environ "RUNNER_TOKEN_SECRET_ARN" = Some (secret_arn s)
         /\ field s = "RUNNER_TOKEN".
Proof.
  eexists. split; [reflexivity|].
  exact (proj1 (BakeryStack_secret_from_environment dev_environ "dev" _ eq_refl)).
Defined.

Lemma BakeryStack_public_network_witness :
  exists st,
    BakeryStack dev_environ "dev" = inr st
    /\ nat_gateways (vpc st) = 0
    /\ assign_public_ip (prefect_ecs_agent_service st) = true.
Proof.
  eexists. split; [reflexivity|].
  pose proof (BakeryStack_public_network dev_environ "dev" _ eq_refl)
    as (Hnat & _ & _ & _ & _ & _ & _ & Hip).
  exact (conj Hnat Hip).
Defined.

End CdkMore.
